(** * Document loading: a shallow embedding of [src/injestion/load_document.py]

    The module wires three small objects together: a file-system port
    ([FileSystemInterface], [DefaultFileSystem]), a downloader port
    ([DocumentDownloader], [HTTPDocumentDownloader]) and the orchestrating
    [DocumentLoadService]; [DocumentRepository] names storage locations.

    Python methods that touch the outside world become computations of the
    monad [M S]: a function from a state [S] to the state it leaves and either
    the value returned or the exception raised.  The platform libraries the
    module calls ([pathlib], the operating system underneath it, [requests])
    are modelled in the modules [pathlib], [os] and [requests] below, up to
    the behaviour the module relies on. *)

From Stdlib Require Import ZArith Ascii String.
From stdpp Require Import gmap strings list.

Local Open Scope Z_scope.

(** ** Pure paths ([pathlib.PurePosixPath])

    A path is kept the way [pathlib] keeps it once parsed: a root and the
    list of its components.  Parsing drops empty components and ["."]
    components, keeps [".."] and tells a leading ["//"] from ["/"]. *)

Module pathlib.

Inductive Root := RootNone | RootSlash | RootDouble.

Record Path := { root : Root; tail : list string }.

#[export] Instance Root_eq_dec : EqDecision Root.
Proof. solve_decision. Defined.

#[export] Instance Path_eq_dec : EqDecision Path.
Proof. solve_decision. Defined.

Definition sep : ascii := "/"%char.

Definition startswith_sep (s : string) : bool :=
  match s with
  | String c _ => Ascii.eqb c sep
  | EmptyString => false
  end.

Fixpoint endswith_sep (s : string) : bool :=
  match s with
  | EmptyString => false
  | String c EmptyString => Ascii.eqb c sep
  | String _ s' => endswith_sep s'
  end.

(** [str.split("/")]: the pieces between separators, at least one piece. *)
Fixpoint split (s : string) : list string :=
  match s with
  | EmptyString => [EmptyString]
  | String c s' =>
      if Ascii.eqb c sep then EmptyString :: split s'
      else match split s' with
           | x :: xs => String c x :: xs
           | [] => [String c EmptyString]
           end
  end.

(** [posixpath.splitroot]: no root, ["/"], or ["//"] when the path starts
    with exactly two separators; three or more count as one. *)
Definition splitroot (p : string) : Root * string :=
  match p with
  | String c0 r0 =>
      if Ascii.eqb c0 sep then
        match r0 with
        | String c1 r1 =>
            if Ascii.eqb c1 sep then
              if startswith_sep r1 then (RootSlash, r0) else (RootDouble, r1)
            else (RootSlash, r0)
        | EmptyString => (RootSlash, r0)
        end
      else (RootNone, p)
  | EmptyString => (RootNone, p)
  end.

Definition keep_part (x : string) : bool :=
  negb (String.eqb x EmptyString) && negb (String.eqb x ".").

Definition parts (rel : string) : list string :=
  List.filter keep_part (split rel).

(** [PurePath(path)] on one string segment ([_parse_path]). *)
Definition PurePath (path : string) : Path :=
  let '(r, rel) := splitroot path in
  {| root := r; tail := parts rel |}.

(** [posixpath.join(a, b)], the join of the host platform on strings. *)
Definition posixpath_join (a b : string) : string :=
  if startswith_sep b then b
  else if String.eqb a EmptyString || endswith_sep a then a +:+ b
  else a +:+ String sep b.

(** [self / key]: a rooted [key] replaces [self]; otherwise its
    components are appended. *)
Definition truediv (self : Path) (key : string) : Path :=
  let other := PurePath key in
  match root other with
  | RootNone => {| root := root self; tail := tail self ++ tail other |}
  | _ => other
  end.

(** [self.parent]: the path without its last component; a path without
    components is its own parent. *)
Definition parent (self : Path) : Path :=
  match tail self with
  | [] => self
  | _ => {| root := root self; tail := removelast (tail self) |}
  end.

(** [self.parents], nearest first. *)
Fixpoint rparents (r : Root) (rtail : list string) : list Path :=
  match rtail with
  | [] => []
  | _ :: rest => {| root := r; tail := rev rest |} :: rparents r rest
  end.

Definition parents (self : Path) : list Path :=
  rparents (root self) (rev (tail self)).

Fixpoint join_parts (parts : list string) : string :=
  match parts with
  | [] => EmptyString
  | [x] => x
  | x :: rest => x +:+ String sep (join_parts rest)
  end.

(** [str(self)]. *)
Definition str (self : Path) : string :=
  match root self, tail self with
  | RootNone, [] => "."
  | RootNone, t => join_parts t
  | RootSlash, t => "/" +:+ join_parts t
  | RootDouble, t => "//" +:+ join_parts t
  end.

End pathlib.
Export pathlib.

(** ** Exceptions and effects *)

Definition bytes := list Byte.byte.

(** The exception classes that reach this module: [requests.HTTPError]
    carries the response status; [RequestException] stands for the other
    errors of the HTTP client (connection, timeout); the four [OSError]
    subclasses carry the file name; [Exception] is anything else a test
    double may raise. *)
Inductive exn :=
| HTTPError (status_code : Z)
| RequestException (detail : string)
| FileExistsError (filename : Path)
| FileNotFoundError (filename : Path)
| NotADirectoryError (filename : Path)
| IsADirectoryError (filename : Path)
| Exception (detail : string).

Definition is_FileNotFoundError (e : exn) : bool :=
  match e with FileNotFoundError _ => true | _ => false end.

Definition is_OSError (e : exn) : bool :=
  match e with
  | FileExistsError _ | FileNotFoundError _
  | NotADirectoryError _ | IsADirectoryError _ => true
  | _ => false
  end.

Inductive outcome (A : Type) :=
| Returned (value : A)
| Raised (e : exn).
Arguments Returned {A} value.
Arguments Raised {A} e.

(** A call runs from a state and leaves a state, also when it raises:
    nothing is rolled back. *)
Definition M (S A : Type) : Type := S -> S * outcome A.

Definition ret {S A} (a : A) : M S A := fun s => (s, Returned a).

Definition raise {S A} (e : exn) : M S A := fun s => (s, Raised e).

Definition bind {S A B} (m : M S A) (k : A -> M S B) : M S B :=
  fun s =>
    match m s with
    | (s', Returned a) => k a s'
    | (s', Raised e) => (s', Raised e)
    end.

(** [try: m  except Exception as e: handler e]. *)
Definition try_except {S A} (m : M S A) (handler : exn -> M S A) : M S A :=
  fun s =>
    match m s with
    | (s', Returned a) => (s', Returned a)
    | (s', Raised e) => handler e s'
    end.

Declare Scope py_scope.
Delimit Scope py_scope with py.
Notation "x <- c1 ;; c2" := (bind c1 (fun x => c2))
  (at level 100, c1 at next level, right associativity) : py_scope.
Notation "c1 ;; c2" := (bind c1 (fun _ => c2))
  (at level 100, right associativity) : py_scope.
Local Open Scope py_scope.

(** ** The file system under [pathlib]

    Entries are keyed by their location: the names from the root directory
    down.  The root directory always exists.  The model has directories and
    regular files; it has no symbolic links, no devices or other special
    files, and an operating system that refuses nothing: no permissions, no
    limit on the length of a name, no full disk.  The general statements
    below therefore say what a call leaves when it returns or raises, and
    none of them says that a call returns from an arbitrary state. *)

Module os.

Inductive Node := File (content : bytes) | Dir.

Record FileSystem := {
  entries : gmap (list string) Node;
  cwd : list string
}.

Definition node_at (fs : FileSystem) (l : list string) : option Node :=
  match l with
  | [] => Some Dir
  | _ => entries fs !! l
  end.

Inductive errno := ENOENT | ENOTDIR.

(** Path resolution, one component at a time: every directory that is
    searched must exist and be a directory; [".."] goes one level up. *)
Fixpoint walk (fs : FileSystem) (cur : list string) (names : list string)
  : errno + list string :=
  match names with
  | [] => inr cur
  | n :: rest =>
      match node_at fs cur with
      | None => inl ENOENT
      | Some (File _) => inl ENOTDIR
      | Some Dir =>
          walk fs (if String.eqb n ".." then removelast cur else cur ++ [n]) rest
      end
  end.

Definition start (fs : FileSystem) (p : Path) : list string :=
  match root p with
  | RootNone => cwd fs
  | _ => []
  end.

Definition resolve (fs : FileSystem) (p : Path) : errno + list string :=
  walk fs (start fs p) (tail p).

Definition OSError_of (e : errno) (p : Path) : exn :=
  match e with
  | ENOENT => FileNotFoundError p
  | ENOTDIR => NotADirectoryError p
  end.

Definition put (l : list string) (n : Node) (fs : FileSystem) : FileSystem :=
  {| entries := <[l := n]> (entries fs); cwd := cwd fs |}.

(** [os.stat(path)]. *)
Definition stat (fs : FileSystem) (p : Path) : errno + Node :=
  match resolve fs p with
  | inl e => inl e
  | inr l => match node_at fs l with
             | Some n => inr n
             | None => inl ENOENT
             end
  end.

(** [os.path.exists(path)] and [os.path.isdir(path)]: what [os.stat]
    found; its errors mean "no". *)
Definition path_exists (fs : FileSystem) (p : Path) : bool :=
  match stat fs p with inr _ => true | inl _ => false end.

Definition path_isdir (fs : FileSystem) (p : Path) : bool :=
  match stat fs p with inr Dir => true | _ => false end.

(** [os.mkdir(path)]: one directory, whose parent must exist. *)
Definition mkdir (p : Path) : M FileSystem unit :=
  fun fs =>
    match resolve fs p with
    | inl e => (fs, Raised (OSError_of e p))
    | inr l =>
        match node_at fs l with
        | Some _ => (fs, Raised (FileExistsError p))
        | None => (put l Dir fs, Returned tt)
        end
    end.

(** [open(path, "wb")], write, close: create or truncate, then fill. *)
Definition write (p : Path) (data : bytes) : M FileSystem unit :=
  fun fs =>
    match resolve fs p with
    | inl e => (fs, Raised (OSError_of e p))
    | inr l =>
        match node_at fs l with
        | Some Dir => (fs, Raised (IsADirectoryError p))
        | _ => (put l (File data) fs, Returned tt)
        end
    end.

(** [fs'] is [fs] with more directories. *)
Definition grows (fs fs' : FileSystem) : Prop :=
  cwd fs' = cwd fs
  /\ (forall c, node_at fs c = Some Dir -> node_at fs' c = Some Dir)
  /\ (forall c x, node_at fs' c = Some (File x) -> node_at fs c = Some (File x)).

End os.

(** ** The I/O methods of [pathlib.Path] *)

(** [path.exists()] and [path.is_dir()]. *)
Definition Path_exists (self : Path) : M os.FileSystem bool :=
  fun fs => (fs, Returned (os.path_exists fs self)).

Definition Path_is_dir (self : Path) : M os.FileSystem bool :=
  fun fs => (fs, Returned (os.path_isdir fs self)).

(** The [except OSError] branch of [Path.mkdir]: swallow the error when
    [exist_ok] is set and the path is a directory. *)
Definition mkdir_OSError (self : Path) (exist_ok : bool) (e : exn) : M os.FileSystem unit :=
  if is_OSError e then
    d <- Path_is_dir self ;;
    if negb exist_ok || negb d then raise e else ret tt
  else raise e.

(** [path.mkdir(parents=False, exist_ok=exist_ok)]: a missing parent is an
    error. *)
Definition Path_mkdir_leaf (self : Path) (exist_ok : bool) : M os.FileSystem unit :=
  try_except (os.mkdir self)
    (fun e => if is_FileNotFoundError e then raise e
              else mkdir_OSError self exist_ok e).

(** [Path.mkdir]:
<<
    try: os.mkdir(self, mode)
    except FileNotFoundError:
        if not parents or self.parent == self: raise
        self.parent.mkdir(parents=True, exist_ok=True)
        self.mkdir(mode, parents=False, exist_ok=exist_ok)
    except OSError:
        if not exist_ok or not self.is_dir(): raise
>>
    The recursion goes to the parent, so it is written on the components of
    the path, last one first; [self.parent == self] is the case without
    components. *)
Fixpoint Path_mkdir_from (r : Root) (rtail : list string) (parents exist_ok : bool)
  : M os.FileSystem unit :=
  let self := {| root := r; tail := rev rtail |} in
  try_except (os.mkdir self)
    (fun e =>
       if is_FileNotFoundError e then
         match rtail with
         | [] => raise e
         | _ :: rparent =>
             if negb parents then raise e
             else
               Path_mkdir_from r rparent true true ;;
               Path_mkdir_leaf self exist_ok
         end
       else mkdir_OSError self exist_ok e).

Definition Path_mkdir (self : Path) (parents exist_ok : bool) : M os.FileSystem unit :=
  Path_mkdir_from (root self) (rev (tail self)) parents exist_ok.

(** [path.write_bytes(data)]. *)
Definition Path_write_bytes (self : Path) (data : bytes) : M os.FileSystem unit :=
  os.write self data.

(** ** The HTTP client ([requests]) and the world *)

Module requests.

(** A response: its status and its body, which under [stream=True] is read
    when [content] is asked for and may fail then. *)
Record Response := { status_code : Z; body : exn + bytes }.

(** [raise_for_status]: client errors (4xx) and server errors (5xx)
    raise [HTTPError]; every other status passes. *)
Definition raise_for_status {S} (r : Response) : M S unit :=
  if (400 <=? status_code r) && (status_code r <? 600)
  then raise (HTTPError (status_code r))
  else ret tt.

Definition content {S} (r : Response) : M S bytes :=
  match body r with
  | inl e => raise e
  | inr b => ret b
  end.

End requests.

(** The world the default adapters act on: the local disk, and what the
    network answers to a GET of a URL under a timeout. *)
Record World := {
  disk : os.FileSystem;
  network : string -> Z -> exn + requests.Response
}.

Definition on_disk {A} (m : M os.FileSystem A) : M World A :=
  fun w =>
    let '(fs, r) := m (disk w) in
    ({| disk := fs; network := network w |}, r).

(** [requests.get(url, stream=True, timeout=timeout)]. *)
Definition requests_get (url : string) (timeout : Z) : M World requests.Response :=
  fun w =>
    match network w url timeout with
    | inl e => (w, Raised e)
    | inr r => (w, Returned r)
    end.

(** ** [FileSystemInterface] and [DefaultFileSystem] *)

(** The protocol: a type [F] of objects acting on states [S] offers the three
    operations.  ([exists] is a keyword here, hence [exists_].) *)
Class FileSystemInterface (S F : Type) := {
  exists_ : F -> Path -> M S bool;
  write_bytes : F -> Path -> bytes -> M S unit;
  create_directory : F -> Path -> M S unit
}.

Module DefaultFileSystem.

Inductive t := new.

Definition exists_ (self : t) (path : Path) : M World bool :=
  on_disk (Path_exists path).

Definition write_bytes (self : t) (path : Path) (content : bytes) : M World unit :=
  on_disk (Path_write_bytes path content).

Definition create_directory (self : t) (path : Path) : M World unit :=
  on_disk (Path_mkdir path true true).

End DefaultFileSystem.

#[export] Instance DefaultFileSystem_FileSystemInterface
  : FileSystemInterface World DefaultFileSystem.t := {
  exists_ := DefaultFileSystem.exists_;
  write_bytes := DefaultFileSystem.write_bytes;
  create_directory := DefaultFileSystem.create_directory
}.

(** The file system of a service is the one it was given or the default
    one ([DocumentLoadService.init]). *)
#[export] Instance Either_FileSystemInterface {F} `{!FileSystemInterface World F}
  : FileSystemInterface World (F + DefaultFileSystem.t) := {
  exists_ self path :=
    match self with
    | inl given => exists_ given path
    | inr default => DefaultFileSystem.exists_ default path
    end;
  write_bytes self path content :=
    match self with
    | inl given => write_bytes given path content
    | inr default => DefaultFileSystem.write_bytes default path content
    end;
  create_directory self path :=
    match self with
    | inl given => create_directory given path
    | inr default => DefaultFileSystem.create_directory default path
    end
}.

(** ** [DocumentDownloader] and [HTTPDocumentDownloader] *)

Class DocumentDownloader (S D : Type) := {
  download : D -> string -> Path -> M S unit
}.

Module HTTPDocumentDownloader.

Record t := { timeout : Z; chunk_size : Z }.

(** [__init__(self, timeout=30, chunk_size=8192)]. *)
Definition new (timeout chunk_size : option Z) : t :=
  {| timeout := default 30 timeout; chunk_size := default 8192 chunk_size |}.

Definition download (self : t) (url : string) (destination : Path) : M World unit :=
  response <- requests_get url (timeout self) ;;
  requests.raise_for_status response ;;
  on_disk (Path_mkdir (parent destination) true true) ;;
  content <- requests.content response ;;
  on_disk (Path_write_bytes destination content).

End HTTPDocumentDownloader.

#[export] Instance HTTPDocumentDownloader_DocumentDownloader
  : DocumentDownloader World HTTPDocumentDownloader.t := {
  download := HTTPDocumentDownloader.download
}.

(** ** [DocumentLoadService] *)

Module DocumentLoadService.

Record t (D F : Type) := new { downloader : D; file_system : F }.
Arguments new {D F} downloader file_system.
Arguments downloader {D F} self : rename.
Arguments file_system {D F} self : rename.

(** [DocumentLoadService(downloader)]: the file system defaults to
    [DefaultFileSystem()]. *)
Definition new_default {D} (downloader : D) : t D DefaultFileSystem.t :=
  new downloader DefaultFileSystem.new.

(** [__init__(self, downloader, file_system=None)]:
<<
    self.downloader = downloader
    self.file_system = file_system or DefaultFileSystem()
>>
    A file system that is [None], or that Python counts as false, is
    replaced by the default one; [truth] is the truth value of the object
    given.  [new] is the service once built. *)
Definition init {D F} (truth : F -> bool) (downloader : D) (file_system : option F)
  : t D (F + DefaultFileSystem.t) :=
  new downloader
      match file_system with
      | Some given => if truth given then inl given else inr DefaultFileSystem.new
      | None => inr DefaultFileSystem.new
      end.

Section load_document.
Context {S D F : Type}.
Context `{!DocumentDownloader S D, !FileSystemInterface S F}.

Definition load_document (self : t D F) (url : string) (destination : Path)
           (skip_if_exists : bool) : M S bool :=
  skip <- (if skip_if_exists
           then exists_ (file_system self) destination
           else ret false) ;;
  if skip then ret false
  else
    create_directory (file_system self) (parent destination) ;;
    download (downloader self) url destination ;;
    ret true.

End load_document.

End DocumentLoadService.

(** ** [DocumentRepository] *)

Module DocumentRepository.

Record t := new { base_directory : Path }.

Definition get_document_path (self : t) (filename : string) : Path :=
  truediv (base_directory self) filename.

Definition ensure_directory_exists (self : t) : M World unit :=
  on_disk (Path_mkdir (base_directory self) true true).

End DocumentRepository.

(** ** Test doubles

    The test-suite replaces the collaborators by [unittest.mock] objects: a
    method of a mock answers with a configured value or raises a configured
    exception, and every call is recorded with its arguments. *)

Inductive Call :=
| call_exists (path : Path)
| call_write_bytes (path : Path) (content : bytes)
| call_create_directory (path : Path)
| call_download (url : string) (destination : Path).

Definition is_exists (c : Call) : bool :=
  match c with call_exists _ => true | _ => false end.
Definition is_create_directory (c : Call) : bool :=
  match c with call_create_directory _ => true | _ => false end.
Definition is_download (c : Call) : bool :=
  match c with call_download _ _ => true | _ => false end.

(** How many of the recorded calls are of one kind. *)
Definition call_count (kind : Call -> bool) (calls : list Call) : nat :=
  length (List.filter kind calls).

(** Recording: the call goes to the end of the record, then the wrapped
    method runs on the state underneath. *)
Definition recording {S A} (c : Call) (m : M S A) : M (list Call * S) A :=
  fun '(calls, s) =>
    let '(s', r) := m s in
    ((calls ++ [c], s'), r).

Record Spy (T : Type) := spy { spied : T }.
Arguments spy {T} spied.
Arguments spied {T} _.

#[export] Instance Spy_FileSystemInterface {S F} `{!FileSystemInterface S F}
  : FileSystemInterface (list Call * S) (Spy F) := {
  exists_ self path := recording (call_exists path) (exists_ (spied self) path);
  write_bytes self path content :=
    recording (call_write_bytes path content) (write_bytes (spied self) path content);
  create_directory self path :=
    recording (call_create_directory path) (create_directory (spied self) path)
}.

#[export] Instance Spy_DocumentDownloader {S D} `{!DocumentDownloader S D}
  : DocumentDownloader (list Call * S) (Spy D) := {
  download self url destination :=
    recording (call_download url destination) (download (spied self) url destination)
}.

(** The service with both collaborators recorded. *)
Definition spy_on {D F} (service : DocumentLoadService.t D F)
  : DocumentLoadService.t (Spy D) (Spy F) :=
  DocumentLoadService.new (spy (DocumentLoadService.downloader service))
                          (spy (DocumentLoadService.file_system service)).

(** The calls of a run that started with [before] on record. *)
Definition new_calls {S A} (before : list Call) (run : (list Call * S) * outcome A)
  : list Call :=
  drop (length before) (fst (fst run)).

(** The state in which [load_document] creates the directory: the one the
    existence check leaves when there is a check; and the calls recorded for
    the check. *)
Definition after_check {S F} `{!FileSystemInterface S F}
           (file_system : F) (path : Path) (skip_if_exists : bool) (s : S) : S :=
  if skip_if_exists then fst (exists_ file_system path s) else s.

Definition check_calls (path : Path) (skip_if_exists : bool) : list Call :=
  if skip_if_exists then [call_exists path] else [].

(** [Mock(spec=FileSystemInterface)] and [Mock(spec=DocumentDownloader)]
    with a [return_value] or a [side_effect] per method; they keep no state
    of their own. *)
Module Mock.

Record FileSystem := {
  exists_result : outcome bool;
  write_bytes_result : outcome unit;
  create_directory_result : outcome unit
}.

Record Downloader := { download_result : outcome unit }.

Definition answer {A} (r : outcome A) : M unit A := fun s => (s, r).

End Mock.

#[export] Instance Mock_FileSystemInterface
  : FileSystemInterface unit Mock.FileSystem := {
  exists_ self _ := Mock.answer (Mock.exists_result self);
  write_bytes self _ _ := Mock.answer (Mock.write_bytes_result self);
  create_directory self _ := Mock.answer (Mock.create_directory_result self)
}.

#[export] Instance Mock_DocumentDownloader
  : DocumentDownloader unit Mock.Downloader := {
  download self _ _ := Mock.answer (Mock.download_result self)
}.

(** The fixtures of the unit tests of [load_document]. *)
Definition test_url : string := "https://example.com/doc.pdf".

Definition test_destination : Path := PurePath "/path/to/doc.pdf".

Definition mock_file_system (exists_return_value : bool) : Mock.FileSystem :=
  {| Mock.exists_result := Returned exists_return_value;
     Mock.write_bytes_result := Returned tt;
     Mock.create_directory_result := Returned tt |}.

Definition mock_downloader : Mock.Downloader :=
  {| Mock.download_result := Returned tt |}.

Definition failing_downloader : Mock.Downloader :=
  {| Mock.download_result := Raised (HTTPError 404) |}.

Definition read_only_file_system : Mock.FileSystem :=
  {| Mock.exists_result := Returned false;
     Mock.write_bytes_result := Raised (Exception "read-only file system");
     Mock.create_directory_result := Raised (Exception "read-only file system") |}.

(** The fixtures of the tests of the HTTP downloader: an empty disk, and a
    network that answers every request with one status and one body. *)
Definition empty_disk : os.FileSystem := {| os.entries := ∅; os.cwd := [] |}.

Definition answering (status : Z) (content : bytes)
  : string -> Z -> exn + requests.Response :=
  fun _ _ => inr {| requests.status_code := status; requests.body := inr content |}.

Definition test_world (status : Z) (content : bytes) : World :=
  {| disk := empty_disk; network := answering status content |}.

Definition document_url : string := "https://example.com/document.pdf".

Definition document_destination : Path := PurePath "/documents/document.pdf".

Definition pdf_content : bytes := [Byte.x50; Byte.x44; Byte.x46].

(** ** Further fixtures and observations *)

Definition is_write_bytes (c : Call) : bool :=
  match c with call_write_bytes _ _ => true | _ => false end.

(** Whether a file name has a separator in it. *)
Fixpoint contains_sep (s : string) : bool :=
  match s with
  | EmptyString => false
  | String c s' => Ascii.eqb c sep || contains_sep s'
  end.

(** A piece of a file name without a separator, and a piece that [pathlib]
    keeps: neither empty nor ["."]. *)
Definition no_sep (piece : string) : bool := negb (contains_sep piece).

Definition kept (piece : string) : bool :=
  negb (String.eqb piece EmptyString) && negb (String.eqb piece ".").

(** A file system whose existence check fails. *)
Definition failing_file_system : Mock.FileSystem :=
  {| Mock.exists_result := Raised (Exception "stat failed");
     Mock.write_bytes_result := Returned tt;
     Mock.create_directory_result := Returned tt |}.

(** A network that cannot be reached, and one whose connection breaks
    while the body is read. *)
Definition unreachable : string -> Z -> exn + requests.Response :=
  fun _ _ => inl (RequestException "connection refused").

Definition breaking (status : Z) : string -> Z -> exn + requests.Response :=
  fun _ _ =>
    inr {| requests.status_code := status;
           requests.body := inl (RequestException "connection broken") |}.

(** A disk with the directory [/documents], and one that also has the file
    [/documents/document.pdf]. *)
Definition documents_disk : os.FileSystem :=
  {| os.entries := <[ ["documents"] := os.Dir ]> ∅; os.cwd := [] |}.

Definition stored_disk (content : bytes) : os.FileSystem :=
  {| os.entries :=
       <[ ["documents"; "document.pdf"] := os.File content ]>
         (<[ ["documents"] := os.Dir ]> ∅);
     os.cwd := [] |}.

(** The worlds of the witnesses: the directory only, the stored document,
    no network, a connection that breaks, and a network that answers only
    requests made under the default timeout. *)
Definition documents_world : World :=
  {| disk := documents_disk; network := answering 200 pdf_content |}.

Definition stored_world : World :=
  {| disk := stored_disk pdf_content; network := answering 200 pdf_content |}.

Definition offline_world : World :=
  {| disk := empty_disk; network := unreachable |}.

Definition breaking_world : World :=
  {| disk := empty_disk; network := breaking 200 |}.

Definition patient_world : World :=
  {| disk := empty_disk;
     network := fun url timeout =>
       if timeout =? 30 then answering 200 pdf_content url timeout
       else inl (RequestException "timed out") |}.

(** * Properties *)

Example PurePath_documents :
  PurePath "/documents" = {| root := RootSlash; tail := ["documents"] |}.
Proof. reflexivity. Qed.

Example PurePath_collapses :
  PurePath "a//b/./c/" = {| root := RootNone; tail := ["a"; "b"; "c"] |}.
Proof. reflexivity. Qed.

Example parent_of_file :
  parent (PurePath "/path/to/doc.pdf") = PurePath "/path/to".
Proof. reflexivity. Qed.

Example parents_of_file :
  parents (PurePath "/a/b/c") = [PurePath "/a/b"; PurePath "/a"; PurePath "/"].
Proof. reflexivity. Qed.

(** ** Path composition *)

Section path_join.

#[local] Arguments String.append !s1 s2 : simpl nomatch.

Lemma append_assoc (a b c : string) : (a +:+ b) +:+ c = a +:+ (b +:+ c).
Proof. induction a as [|x a IH]; simpl; [reflexivity|]. now rewrite IH. Qed.

Lemma split_not_nil (s : string) : split s <> [].
Proof.
  destruct s as [|c s]; simpl; [discriminate|].
  destruct (Ascii.eqb c sep); [discriminate|].
  destruct (split s); discriminate.
Qed.

(** Splitting distributes over a separator in the middle. *)
Lemma split_app_sep (a b : string) :
  split (a +:+ String sep b) = split a ++ split b.
Proof.
  induction a as [|c a IH]; simpl.
  - reflexivity.
  - destruct (Ascii.eqb c sep).
    + now rewrite IH.
    + rewrite IH. destruct (split a) eqn:E; [now apply split_not_nil in E|].
      reflexivity.
Qed.

Lemma endswith_sep_inv (a : string) :
  endswith_sep a = true -> exists a0, a = a0 +:+ String sep EmptyString.
Proof.
  induction a as [|c a IH]; simpl; [discriminate|].
  destruct a as [|c' a'].
  - intros H. apply Ascii.eqb_eq in H. subst c. now exists EmptyString.
  - intros H. destruct (IH H) as [a0 E]. exists (String c a0).
    simpl. now rewrite <- E.
Qed.

Lemma endswith_sep_app (a0 : string) : endswith_sep (a0 +:+ String sep EmptyString) = true.
Proof.
  induction a0 as [|c a0 IH]; simpl; [reflexivity|].
  destruct (a0 +:+ String sep EmptyString) eqn:E; [|exact IH].
  destruct a0; discriminate.
Qed.

Lemma parts_app_sep (a b : string) :
  parts (a +:+ String sep b) = parts a ++ parts b.
Proof. unfold parts. now rewrite split_app_sep, List.filter_app. Qed.

Lemma parts_app_after_sep (a b : string) :
  a = EmptyString \/ endswith_sep a = true -> parts (a +:+ b) = parts a ++ parts b.
Proof.
  intros [->|H]; [reflexivity|].
  destruct (endswith_sep_inv a H) as [a0 ->].
  rewrite append_assoc. simpl. rewrite !parts_app_sep.
  rewrite <- app_assoc. reflexivity.
Qed.

(** A key that does not start with a separator has no root. *)
Lemma splitroot_relative (f : string) :
  startswith_sep f = false -> splitroot f = (RootNone, f).
Proof. destruct f as [|c f]; simpl; [reflexivity|]. now intros ->. Qed.

Lemma splitroot_rooted (f : string) :
  startswith_sep f = true -> root (PurePath f) <> RootNone.
Proof.
  destruct f as [|c0 [|c1 r1]]; simpl; [discriminate| |];
    unfold PurePath; simpl; intros ->; [discriminate|].
  destruct (Ascii.eqb c1 sep); [destruct (startswith_sep r1)|]; discriminate.
Qed.

(** Appending to a non-empty path keeps its root, as long as no new
    separator lands among the leading ones. *)
Lemma splitroot_app (b g : string) (r : Root) (rel : string) :
  splitroot b = (r, rel) ->
  b <> EmptyString ->
  startswith_sep g = false \/ endswith_sep b = false ->
  splitroot (b +:+ g) = (r, rel +:+ g).
Proof.
  destruct b as [|c0 r0]; [congruence|]. intros Hb _ Hg. simpl in *.
  destruct (Ascii.eqb c0 sep) eqn:E0; [|now inversion Hb].
  destruct r0 as [|c1 r1]; simpl in *.
  - destruct Hg as [Hg|Hg]; [|discriminate].
    inversion Hb; subst. destruct g as [|c g]; [reflexivity|].
    simpl in Hg. now rewrite Hg.
  - destruct (Ascii.eqb c1 sep) eqn:E1; [|now inversion Hb].
    destruct r1 as [|c2 r2]; simpl in *.
    + destruct Hg as [Hg|Hg]; [|discriminate].
      inversion Hb; subst. now rewrite Hg.
    + destruct (Ascii.eqb c2 sep); now inversion Hb.
Qed.

(** What is left after the root ends like the whole path does. *)
Lemma splitroot_endswith (b : string) (r : Root) (rel : string) :
  splitroot b = (r, rel) -> endswith_sep b = true ->
  rel = EmptyString \/ endswith_sep rel = true.
Proof.
  intros Hs He.
  destruct b as [|c0 [|c1 [|c2 r2]]]; cbn in Hs.
  - discriminate.
  - destruct (Ascii.eqb c0 sep); inversion Hs; subst; auto.
  - destruct (Ascii.eqb c0 sep); [destruct (Ascii.eqb c1 sep)|];
      inversion Hs; subst; auto.
  - destruct (Ascii.eqb c0 sep);
      [destruct (Ascii.eqb c1 sep); [destruct (Ascii.eqb c2 sep)|]|];
      inversion Hs; subst; auto.
Qed.

(** [pathlib]'s [/] is the join of the platform: parsing the joined
    strings gives the joined paths. *)
Lemma truediv_posixpath_join (b f : string) :
  truediv (PurePath b) f = PurePath (posixpath_join b f).
Proof.
  unfold truediv, posixpath_join.
  destruct (startswith_sep f) eqn:Hf.
  - pose proof (splitroot_rooted f Hf) as Hr.
    destruct (root (PurePath f)); [congruence|reflexivity|reflexivity].
  - assert (HPf : PurePath f = {| root := RootNone; tail := parts f |}).
    { unfold PurePath. now rewrite splitroot_relative. }
    rewrite HPf; simpl.
    destruct (String.eqb b EmptyString) eqn:Hb; simpl.
    + apply String.eqb_eq in Hb. subst b. simpl. now rewrite HPf.
    + apply String.eqb_neq in Hb.
      destruct (splitroot b) as [r rel] eqn:Hs.
      destruct (endswith_sep b) eqn:He.
      * unfold PurePath at 3.
        rewrite (splitroot_app b f r rel Hs Hb (or_introl Hf)).
        unfold PurePath. rewrite Hs. simpl. f_equal.
        symmetry. apply parts_app_after_sep.
        exact (splitroot_endswith b r rel Hs He).
      * unfold PurePath at 3.
        rewrite (splitroot_app b (String sep f) r rel Hs Hb (or_intror He)).
        unfold PurePath. rewrite Hs. simpl. f_equal.
        symmetry. apply parts_app_sep.
Qed.

End path_join.

Import DocumentRepository.

(** X16.  A file name that starts with a separator replaces the base
    directory: the document path is the file name parsed on its own, outside
    the base directory. *)
Lemma get_document_path_rooted (base : Path) (filename : string) :
  startswith_sep filename = true ->
  get_document_path (DocumentRepository.new base) filename = PurePath filename.
Proof.
  intros Hf. unfold get_document_path, truediv; simpl.
  pose proof (splitroot_rooted filename Hf).
  destruct (root (PurePath filename)); [congruence|reflexivity|reflexivity].
Qed.

(** X17.  Any other file name keeps the root of the base directory and
    adds its components after those of the base directory, [".."] included;
    only empty components and ["."] are dropped. *)
Lemma get_document_path_relative (base : Path) (filename : string) :
  startswith_sep filename = false ->
  get_document_path (DocumentRepository.new base) filename
  = {| root := root base; tail := tail base ++ parts filename |}.
Proof.
  intros Hf. unfold get_document_path, truediv, PurePath; simpl.
  now rewrite splitroot_relative.
Qed.

(** ** What [get_document_path] does to the file name *)

(** The pieces of a string have no separator in them and join back to
    the string. *)
Lemma join_parts_cons (a b : string) (rest : list string) :
  join_parts (a :: b :: rest) = a +:+ String sep (join_parts (b :: rest)).
Proof. reflexivity. Qed.

Lemma join_parts_split (s : string) : join_parts (split s) = s.
Proof.
  induction s as [|c s IH]; [reflexivity|]. cbn [split].
  destruct (split s) as [|x xs] eqn:E; [now apply split_not_nil in E|].
  destruct (Ascii.eqb c sep) eqn:Hc.
  - apply Ascii.eqb_eq in Hc. subst c.
    rewrite join_parts_cons, IH. reflexivity.
  - destruct xs as [|y ys].
    + cbn [join_parts] in *. now rewrite IH.
    + rewrite join_parts_cons in *. rewrite <- IH. reflexivity.
Qed.

Lemma split_no_sep (s : string) : forallb no_sep (split s) = true.
Proof.
  induction s as [|c s IH]; [reflexivity|]. cbn [split].
  destruct (Ascii.eqb c sep) eqn:Hc.
  - cbn. exact IH.
  - destruct (split s) as [|x xs] eqn:E; [now apply split_not_nil in E|].
    cbn in *. unfold no_sep in *. cbn. rewrite Hc. exact IH.
Qed.

(** The components of a parsed path are the kept pieces of the whole
    string: what the root takes away is empty pieces only. *)
Lemma parts_leading_sep (c : ascii) (s : string) :
  Ascii.eqb c sep = true -> parts (String c s) = parts s.
Proof. intros H. unfold parts. cbn [split]. now rewrite H. Qed.

Lemma PurePath_tail (s : string) : tail (PurePath s) = parts s.
Proof.
  unfold PurePath.
  destruct s as [|c0 [|c1 r1]]; cbn [splitroot]; [reflexivity| |].
  - destruct (Ascii.eqb c0 sep) eqn:H0; cbn [tail]; [|reflexivity].
    now rewrite parts_leading_sep.
  - destruct (Ascii.eqb c0 sep) eqn:H0; [|reflexivity].
    rewrite (parts_leading_sep c0) by exact H0.
    destruct (Ascii.eqb c1 sep) eqn:H1; [|reflexivity].
    destruct (startswith_sep r1); cbn [tail]; [reflexivity|].
    now rewrite parts_leading_sep.
Qed.

Lemma PurePath_root (s : string) : root (PurePath s) = fst (splitroot s).
Proof. unfold PurePath. now destruct (splitroot s). Qed.

Lemma truediv_rooted (base : Path) (filename : string) :
  startswith_sep filename = true -> truediv base filename = PurePath filename.
Proof.
  intros Hf. unfold truediv.
  pose proof (splitroot_rooted filename Hf).
  destruct (root (PurePath filename)); [congruence|reflexivity|reflexivity].
Qed.

(** C6, as the code has it.  [get_document_path] is a function of the base
    directory and the file name alone (it lives outside the monad: no state
    is read or changed), and it validates nothing.  The file name is cut at
    every separator into pieces, which have no separator in them and join
    back to the file name; the pieces that are empty or ["."] are dropped and
    the others, [".."] included, are kept in order.  A file name that does
    not start with a separator adds the kept pieces to the components of the
    base directory, under its root; one that starts with a separator gives a
    rooted path of the kept pieces alone, without the base directory.  This
    is the path that the join of the platform parses to, not the text of
    that join. *)
Theorem get_document_path_joins_kept_pieces (base : Path) (b filename : string) :
  join_parts (split filename) = filename
  /\ forallb no_sep (split filename) = true
  /\ get_document_path (DocumentRepository.new base) filename
     = (if startswith_sep filename
        then {| root := fst (splitroot filename);
                tail := List.filter kept (split filename) |}
        else {| root := root base;
                tail := tail base ++ List.filter kept (split filename) |})
  /\ get_document_path (DocumentRepository.new (PurePath b)) filename
     = PurePath (posixpath_join b filename).
Proof.
  split; [apply join_parts_split|]. split; [apply split_no_sep|]. split.
  - change (List.filter kept (split filename)) with (parts filename).
    unfold get_document_path; cbn [base_directory].
    destruct (startswith_sep filename) eqn:Hf.
    + rewrite (truediv_rooted base filename Hf).
      rewrite <- PurePath_tail, <- PurePath_root. now destruct (PurePath filename).
    + unfold truediv, PurePath. now rewrite (splitroot_relative _ Hf).
  - apply truediv_posixpath_join.
Qed.

(** The join of the platform keeps the text of the file name; the document
    path does not: repeated separators, ["."] and a trailing separator are
    gone. *)
Lemma get_document_path_normalises :
  posixpath_join "/documents" "a//b/./c/" = "/documents/a//b/./c/"
  /\ str (get_document_path (DocumentRepository.new (PurePath "/documents"))
            "a//b/./c/")
     = "/documents/a/b/c"
  /\ str (get_document_path (DocumentRepository.new (PurePath "/documents"))
            "a//b/./c/")
     <> posixpath_join "/documents" "a//b/./c/".
Proof. repeat split; try reflexivity. discriminate. Qed.

Example get_document_path_test_pdf :
  str (get_document_path (DocumentRepository.new (PurePath "/documents")) "test.pdf")
  = "/documents/test.pdf".
Proof. reflexivity. Qed.

Example get_document_path_nested :
  get_document_path (DocumentRepository.new (PurePath "/documents")) "nested/path.pdf"
  = PurePath "/documents/nested/path.pdf".
Proof. reflexivity. Qed.

Example get_document_path_traversal :
  str (get_document_path (DocumentRepository.new (PurePath "/documents"))
         "../../etc/passwd")
  = "/documents/../../etc/passwd".
Proof. reflexivity. Qed.

Example get_document_path_absolute :
  str (get_document_path (DocumentRepository.new (PurePath "/documents")) "/etc/passwd")
  = "/etc/passwd".
Proof. reflexivity. Qed.

(** ** The orchestration of [load_document] *)

Lemma new_calls_app {S A} (before added : list Call) (s : S) (r : outcome A) :
  new_calls before ((before ++ added, s), r) = added.
Proof. unfold new_calls; simpl. apply drop_app_length. Qed.

Section load_document_properties.
Context {S D F : Type}.
Context `{!DocumentDownloader S D, !FileSystemInterface S F}.
Variable service : DocumentLoadService.t D F.

Import DocumentLoadService.

Local Abbreviation fs := (file_system service).
Local Abbreviation dl := (downloader service).

(** One equation per way through the method. *)
Lemma load_document_skip url d calls s s' :
  exists_ fs d s = (s', Returned true) ->
  load_document (spy_on service) url d true (calls, s)
  = ((calls ++ [call_exists d], s'), Returned false).
Proof.
  intros Hex. unfold load_document, bind; simpl. rewrite Hex. reflexivity.
Qed.

Lemma load_document_check_raises url d calls s s' e :
  exists_ fs d s = (s', Raised e) ->
  load_document (spy_on service) url d true (calls, s)
  = ((calls ++ [call_exists d], s'), Raised e).
Proof.
  intros Hex. unfold load_document, bind; simpl. rewrite Hex. reflexivity.
Qed.

Lemma load_document_proceeds url d skip calls s :
  (skip = true -> snd (exists_ fs d s) = Returned false) ->
  load_document (spy_on service) url d skip (calls, s)
  = match create_directory fs (parent d) (after_check fs d skip s) with
    | (s2, Raised e) =>
        ((calls ++ check_calls d skip ++ [call_create_directory (parent d)], s2),
         Raised e)
    | (s2, Returned _) =>
        match download dl url d s2 with
        | (s3, Raised e) =>
            ((calls ++ check_calls d skip
                    ++ [call_create_directory (parent d); call_download url d], s3),
             Raised e)
        | (s3, Returned _) =>
            ((calls ++ check_calls d skip
                    ++ [call_create_directory (parent d); call_download url d], s3),
             Returned true)
        end
    end.
Proof.
  intros Hex. unfold load_document, bind, after_check, check_calls; simpl.
  destruct skip; simpl.
  - specialize (Hex eq_refl). destruct (exists_ fs d s) as [s1 r1]; simpl in *.
    subst r1; simpl.
    destruct (create_directory fs (parent d) s1) as [s2 [[]|e]]; simpl.
    + destruct (download dl url d s2) as [s3 [[]|e]]; simpl;
        rewrite <- !app_assoc; reflexivity.
    + rewrite <- !app_assoc; reflexivity.
  - destruct (create_directory fs (parent d) s) as [s2 [[]|e]]; simpl.
    + destruct (download dl url d s2) as [s3 [[]|e]]; simpl;
        rewrite <- !app_assoc; reflexivity.
    + reflexivity.
Qed.

(** C1 (skip correctness).  When the file system answers that the
    destination exists and [skip_if_exists] is true, [load_document]
    returns [False]; the only call it makes is the existence check, so
    [create_directory] and [download] are called zero times, and the state
    is the one the check left. *)
Theorem load_document_skips_existing url d calls s s' :
  exists_ fs d s = (s', Returned true) ->
  let run := load_document (spy_on service) url d true (calls, s) in
  run = ((calls ++ [call_exists d], s'), Returned false)
  /\ new_calls calls run = [call_exists d]
  /\ call_count is_create_directory (new_calls calls run) = 0%nat
  /\ call_count is_download (new_calls calls run) = 0%nat.
Proof.
  intros Hex run. subst run. rewrite (load_document_skip _ _ _ _ _ Hex).
  rewrite new_calls_app. repeat split; reflexivity.
Qed.

(** C2 (fresh download).  When the file system answers that the
    destination does not exist, then for either value of [skip_if_exists],
    and provided [create_directory] and [download] return normally,
    [load_document] returns [True], having called [create_directory] once,
    on the parent of the destination, and then [download] once. *)
Theorem load_document_fresh_download url d skip calls s s2 s3 :
  snd (exists_ fs d s) = Returned false ->
  create_directory fs (parent d) (after_check fs d skip s) = (s2, Returned tt) ->
  download dl url d s2 = (s3, Returned tt) ->
  let run := load_document (spy_on service) url d skip (calls, s) in
  run = ((calls ++ check_calls d skip
                ++ [call_create_directory (parent d); call_download url d], s3),
         Returned true)
  /\ List.filter is_create_directory (new_calls calls run)
     = [call_create_directory (parent d)]
  /\ call_count is_create_directory (new_calls calls run) = 1%nat
  /\ call_count is_download (new_calls calls run) = 1%nat.
Proof.
  intros Hex Hmk Hdl run. subst run.
  rewrite load_document_proceeds by (intros _; exact Hex).
  rewrite Hmk, Hdl, new_calls_app.
  destruct skip; repeat split; reflexivity.
Qed.

(** C3 (forced overwrite).  When the file system would answer that the
    destination exists and [skip_if_exists] is false, and provided
    [create_directory] and [download] return normally, [load_document]
    returns [True], having called [create_directory] once and [download]
    once, with the very [url] and [destination] it was given. *)
Theorem load_document_forced_overwrite url d calls s s2 s3 :
  snd (exists_ fs d s) = Returned true ->
  create_directory fs (parent d) s = (s2, Returned tt) ->
  download dl url d s2 = (s3, Returned tt) ->
  let run := load_document (spy_on service) url d false (calls, s) in
  run = ((calls ++ [call_create_directory (parent d); call_download url d], s3),
         Returned true)
  /\ call_count is_create_directory (new_calls calls run) = 1%nat
  /\ List.filter is_download (new_calls calls run) = [call_download url d].
Proof.
  intros _ Hmk Hdl run. subst run.
  rewrite load_document_proceeds by discriminate.
  unfold after_check, check_calls. rewrite Hmk, Hdl. simpl.
  rewrite new_calls_app. repeat split; reflexivity.
Qed.

(** C4 (error transparency).  When the call reaches the downloader (the
    download is not skipped and the directory was created) and [download]
    raises [e], [load_document] raises the same [e] and returns no boolean;
    [download] was called once, and the state is the one it left. *)
Theorem load_document_propagates_download_error url d skip calls s s2 s3 e :
  (skip = true -> snd (exists_ fs d s) = Returned false) ->
  create_directory fs (parent d) (after_check fs d skip s) = (s2, Returned tt) ->
  download dl url d s2 = (s3, Raised e) ->
  let run := load_document (spy_on service) url d skip (calls, s) in
  snd run = Raised e
  /\ (forall b : bool, snd run <> Returned b)
  /\ snd (fst run) = s3
  /\ call_count is_download (new_calls calls run) = 1%nat.
Proof.
  intros Hex Hmk Hdl run. subst run.
  rewrite load_document_proceeds by exact Hex.
  rewrite Hmk, Hdl, new_calls_app. simpl.
  destruct skip; repeat split; try reflexivity; discriminate.
Qed.

(** C9 (the directory comes first).  When the download is not skipped and
    [create_directory] raises [e], [load_document] raises [e]; the last
    call on record is that [create_directory], and [download] was not
    called. *)
Theorem load_document_directory_error_first url d skip calls s s2 e :
  (skip = true -> snd (exists_ fs d s) = Returned false) ->
  create_directory fs (parent d) (after_check fs d skip s) = (s2, Raised e) ->
  let run := load_document (spy_on service) url d skip (calls, s) in
  run = ((calls ++ check_calls d skip ++ [call_create_directory (parent d)], s2),
         Raised e)
  /\ call_count is_download (new_calls calls run) = 0%nat.
Proof.
  intros Hex Hmk run. subst run.
  rewrite load_document_proceeds by exact Hex.
  rewrite Hmk, new_calls_app.
  destruct skip; split; reflexivity.
Qed.

(** In every run, whatever the collaborators do, the calls are a prefix
    of: the existence check (if any), [create_directory], [download]. *)
Lemma load_document_calls url d skip calls s :
  let recorded :=
    new_calls calls (load_document (spy_on service) url d skip (calls, s)) in
  recorded = [call_exists d]
  \/ recorded = check_calls d skip ++ [call_create_directory (parent d)]
  \/ recorded = check_calls d skip
                ++ [call_create_directory (parent d); call_download url d].
Proof.
  intros recorded. subst recorded.
  destruct skip.
  - destruct (exists_ fs d s) as [s1 [[|]|e]] eqn:Hex.
    + rewrite (load_document_skip _ _ _ _ _ Hex), new_calls_app. now left.
    + rewrite load_document_proceeds by (rewrite Hex; reflexivity).
      destruct (create_directory _ _ _) as [s2 [[]|e]];
        [destruct (download _ _ _ s2) as [s3 [[]|e]]|];
        rewrite new_calls_app; auto.
    + rewrite (load_document_check_raises _ _ _ _ _ _ Hex), new_calls_app.
      now left.
  - rewrite load_document_proceeds by discriminate.
    destruct (create_directory _ _ _) as [s2 [[]|e]];
      [destruct (download _ _ _ s2) as [s3 [[]|e]]|];
      rewrite new_calls_app; auto.
Qed.

(** C10 (no existence check when forced).  With [skip_if_exists] false,
    whatever the collaborators do, [load_document] makes no call to
    [exists]: its first call is [create_directory]. *)
Theorem load_document_forced_never_checks url d calls s :
  let recorded :=
    new_calls calls (load_document (spy_on service) url d false (calls, s)) in
  call_count is_exists recorded = 0%nat
  /\ head recorded = Some (call_create_directory (parent d)).
Proof.
  intros recorded. subst recorded.
  rewrite load_document_proceeds by discriminate.
  destruct (create_directory _ _ _) as [s2 [[]|e]];
    [destruct (download _ _ _ s2) as [s3 [[]|e]]|];
    rewrite new_calls_app; split; reflexivity.
Qed.

(** Recording changes nothing: outcome and state are those of the service
    run without it. *)
Lemma spy_on_transparent url d skip calls s :
  let recorded := load_document (spy_on service) url d skip (calls, s) in
  let direct := load_document service url d skip s in
  snd (fst recorded) = fst direct /\ snd recorded = snd direct.
Proof.
  unfold load_document, bind; simpl.
  destruct skip; simpl.
  - destruct (exists_ fs d s) as [s1 [[|]|e]]; simpl; auto.
    destruct (create_directory fs (parent d) s1) as [s2 [[]|e]]; simpl; auto.
    destruct (download dl url d s2) as [s3 [[]|e]]; simpl; auto.
  - destruct (create_directory fs (parent d) s) as [s2 [[]|e]]; simpl; auto.
    destruct (download dl url d s2) as [s3 [[]|e]]; simpl; auto.
Qed.

End load_document_properties.

Import DocumentLoadService.

Lemma load_document_skips_existing_witness :
  exists_ (mock_file_system true) test_destination tt = (tt, Returned true)
  /\ load_document (spy_on (new mock_downloader (mock_file_system true)))
       test_url test_destination true ([], tt)
     = (([call_exists test_destination], tt), Returned false).
Proof.
  split; [reflexivity|].
  apply (load_document_skips_existing
           (new mock_downloader (mock_file_system true))
           test_url test_destination [] tt tt).
  reflexivity.
Defined.

Lemma load_document_fresh_download_witness :
  snd (exists_ (mock_file_system false) test_destination tt) = Returned false
  /\ load_document (spy_on (new mock_downloader (mock_file_system false)))
       test_url test_destination true ([], tt)
     = (([call_exists test_destination;
          call_create_directory (PurePath "/path/to");
          call_download test_url test_destination], tt), Returned true).
Proof.
  split; [reflexivity|].
  apply (load_document_fresh_download
           (new mock_downloader (mock_file_system false))
           test_url test_destination true [] tt tt tt);
    reflexivity.
Defined.

Lemma load_document_forced_overwrite_witness :
  snd (exists_ (mock_file_system true) test_destination tt) = Returned true
  /\ load_document (spy_on (new mock_downloader (mock_file_system true)))
       test_url test_destination false ([], tt)
     = (([call_create_directory (PurePath "/path/to");
          call_download test_url test_destination], tt), Returned true).
Proof.
  split; [reflexivity|].
  apply (load_document_forced_overwrite
           (new mock_downloader (mock_file_system true))
           test_url test_destination [] tt tt tt);
    reflexivity.
Defined.

Lemma load_document_propagates_download_error_witness :
  download failing_downloader test_url test_destination tt
  = (tt, Raised (HTTPError 404))
  /\ snd (load_document (spy_on (new failing_downloader (mock_file_system false)))
            test_url test_destination true ([], tt))
     = Raised (HTTPError 404).
Proof.
  split; [reflexivity|].
  apply (load_document_propagates_download_error
           (new failing_downloader (mock_file_system false))
           test_url test_destination true [] tt tt tt (HTTPError 404));
    reflexivity.
Defined.

Lemma load_document_directory_error_first_witness :
  create_directory read_only_file_system (parent test_destination) tt
  = (tt, Raised (Exception "read-only file system"))
  /\ load_document (spy_on (new mock_downloader read_only_file_system))
       test_url test_destination true ([], tt)
     = (([call_exists test_destination;
          call_create_directory (PurePath "/path/to")], tt),
        Raised (Exception "read-only file system")).
Proof.
  split; [reflexivity|].
  apply (load_document_directory_error_first
           (new mock_downloader read_only_file_system)
           test_url test_destination true [] tt tt
           (Exception "read-only file system"));
    reflexivity.
Defined.

(** ** More on [load_document] *)

Section load_document_further.
Context {S D F : Type}.
Context `{!DocumentDownloader S D, !FileSystemInterface S F}.
Variable service : DocumentLoadService.t D F.

Local Abbreviation fs := (file_system service).
Local Abbreviation dl := (downloader service).

(** X1.  When the existence check itself raises [e], [load_document] raises
    [e] and stops there: neither [create_directory] nor [download] is
    called. *)
Theorem load_document_propagates_check_error url d calls s s' e :
  exists_ fs d s = (s', Raised e) ->
  let run := load_document (spy_on service) url d true (calls, s) in
  run = ((calls ++ [call_exists d], s'), Raised e)
  /\ call_count is_create_directory (new_calls calls run) = 0%nat
  /\ call_count is_download (new_calls calls run) = 0%nat.
Proof.
  intros Hex run. subst run.
  rewrite (load_document_check_raises _ _ _ _ _ _ _ Hex), new_calls_app.
  repeat split; reflexivity.
Qed.

(** X2.  In every run, whatever the collaborators do: [load_document]
    never calls [write_bytes] itself, it calls each of [exists],
    [create_directory] and [download] at most once, and it calls [download]
    only after a [create_directory]. *)
Theorem load_document_call_discipline url d skip calls s :
  let recorded :=
    new_calls calls (load_document (spy_on service) url d skip (calls, s)) in
  call_count is_write_bytes recorded = 0%nat
  /\ (call_count is_exists recorded <= 1)%nat
  /\ (call_count is_create_directory recorded <= 1)%nat
  /\ (call_count is_download recorded <= call_count is_create_directory recorded)%nat.
Proof.
  intros recorded.
  destruct (load_document_calls service url d skip calls s) as [H|[H|H]];
    fold recorded in H; rewrite H; destruct skip; cbn; repeat split; lia.
Qed.

(** X3.  What the result says about what was done: [False] is returned only
    when skipping was asked for, and then the existence check is the only
    call; [True] is returned only after [create_directory] and [download]
    were both called, in that order. *)
Theorem load_document_result_meaning url d skip calls s (b : bool) :
  snd (load_document (spy_on service) url d skip (calls, s)) = Returned b ->
  new_calls calls (load_document (spy_on service) url d skip (calls, s))
  = (if b
     then check_calls d skip ++ [call_create_directory (parent d); call_download url d]
     else [call_exists d])
  /\ b || skip = true.
Proof.
  destruct skip.
  - destruct (exists_ fs d s) as [s1 [[|]|e]] eqn:Hex.
    + rewrite (load_document_skip _ _ _ _ _ _ Hex), new_calls_app.
      intros [= <-]. split; reflexivity.
    + rewrite load_document_proceeds by (rewrite Hex; reflexivity).
      destruct (create_directory _ _ _) as [s2 [[]|e]];
        [destruct (download _ _ _ s2) as [s3 [[]|e]]|];
        rewrite new_calls_app; simpl; try discriminate.
      intros [= <-]. split; reflexivity.
    + rewrite (load_document_check_raises _ _ _ _ _ _ _ Hex). discriminate.
  - rewrite load_document_proceeds by discriminate.
    destruct (create_directory _ _ _) as [s2 [[]|e]];
      [destruct (download _ _ _ s2) as [s3 [[]|e]]|];
      rewrite new_calls_app; simpl; try discriminate.
    intros [= <-]. split; reflexivity.
Qed.

End load_document_further.

Lemma load_document_propagates_check_error_witness :
  exists_ failing_file_system test_destination tt
  = (tt, Raised (Exception "stat failed"))
  /\ load_document
       (spy_on (DocumentLoadService.new mock_downloader failing_file_system))
       test_url test_destination true ([], tt)
     = (([call_exists test_destination], tt), Raised (Exception "stat failed")).
Proof.
  split; [reflexivity|].
  apply (load_document_propagates_check_error
           (DocumentLoadService.new mock_downloader failing_file_system)
           test_url test_destination [] tt tt (Exception "stat failed")).
  reflexivity.
Defined.

Lemma load_document_result_meaning_witness :
  snd (load_document
         (spy_on (DocumentLoadService.new mock_downloader (mock_file_system false)))
         test_url test_destination true ([], tt))
  = Returned true
  /\ new_calls []
       (load_document
          (spy_on (DocumentLoadService.new mock_downloader (mock_file_system false)))
          test_url test_destination true ([], tt))
     = [call_exists test_destination;
        call_create_directory (parent test_destination);
        call_download test_url test_destination].
Proof.
  split; [reflexivity|].
  apply (load_document_result_meaning
           (DocumentLoadService.new mock_downloader (mock_file_system false))
           test_url test_destination true [] tt true).
  reflexivity.
Defined.

(** ** Directory creation *)

Section directory_creation.

Import os.

Lemma node_at_put_same l n fs : l <> [] -> node_at (put l n fs) l = Some n.
Proof.
  intros Hl. destruct l; [congruence|]. simpl. apply lookup_insert_eq.
Qed.

Lemma node_at_put_other l n fs c : c <> l -> node_at (put l n fs) c = node_at fs c.
Proof.
  intros Hc. destruct c; [reflexivity|]. simpl. now apply lookup_insert_ne.
Qed.

(** A new directory hides no directory. *)
Lemma node_at_put_Dir l fs c :
  node_at fs c = Some Dir -> node_at (put l Dir fs) c = Some Dir.
Proof.
  intros Hc. destruct (decide (c = l)) as [->|Hne].
  - destruct l; [reflexivity|]. simpl. apply lookup_insert_eq.
  - now rewrite node_at_put_other.
Qed.

(** So every path that resolved still resolves, to the same place. *)
Lemma walk_put_Dir l fs names : forall cur target,
  walk fs cur names = inr target -> walk (put l Dir fs) cur names = inr target.
Proof.
  induction names as [|n rest IH]; intros cur target; simpl; [trivial|].
  destruct (node_at fs cur) as [[c|]|] eqn:Hc; try discriminate.
  rewrite (node_at_put_Dir _ _ _ Hc). apply IH.
Qed.

(** Resolving a path goes through its parent, which is a directory. *)
Lemma walk_snoc fs names n : forall cur target,
  walk fs cur (names ++ [n]) = inr target ->
  exists up, walk fs cur names = inr up /\ node_at fs up = Some Dir.
Proof.
  induction names as [|m rest IH]; intros cur target; simpl.
  - destruct (node_at fs cur) as [[c|]|] eqn:Hc; try discriminate.
    intros _. now exists cur.
  - destruct (node_at fs cur) as [[c|]|]; try discriminate. apply IH.
Qed.

Lemma path_isdir_inv fs p :
  path_isdir fs p = true ->
  exists l, resolve fs p = inr l /\ node_at fs l = Some Dir.
Proof.
  unfold path_isdir, stat. destruct (resolve fs p) as [e|l]; [discriminate|].
  destruct (node_at fs l) as [[c|]|] eqn:Hl; try discriminate.
  intros _. now exists l.
Qed.

Lemma path_isdir_intro fs p l :
  resolve fs p = inr l -> node_at fs l = Some Dir -> path_isdir fs p = true.
Proof. unfold path_isdir, stat. now intros -> ->. Qed.

(** [os.mkdir] either makes the directory or changes nothing. *)
Lemma mkdir_returned p fs fs' :
  mkdir p fs = (fs', Returned tt) -> path_isdir fs' p = true.
Proof.
  unfold mkdir. destruct (resolve fs p) as [e|l] eqn:Hr; [discriminate|].
  destruct (node_at fs l) eqn:Hl; [discriminate|].
  intros [= <-]. apply (path_isdir_intro _ _ l).
  - unfold resolve in *. now apply walk_put_Dir.
  - apply node_at_put_same. intros ->. discriminate.
Qed.

Lemma mkdir_raised p fs fs' e :
  mkdir p fs = (fs', Raised e) -> fs' = fs /\ is_OSError e = true.
Proof.
  unfold mkdir. destruct (resolve fs p) as [[]|l].
  - now intros [= <- <-].
  - now intros [= <- <-].
  - destruct (node_at fs l); [|discriminate]. now intros [= <- <-].
Qed.

Lemma mkdir_existing_directory p fs :
  path_isdir fs p = true -> mkdir p fs = (fs, Raised (FileExistsError p)).
Proof.
  intros H. destruct (path_isdir_inv _ _ H) as (l & Hr & Hl).
  unfold mkdir. now rewrite Hr, Hl.
Qed.

(** The [except OSError] branch returns only for a directory. *)
Lemma mkdir_OSError_returned p exist_ok e fs fs' :
  mkdir_OSError p exist_ok e fs = (fs', Returned tt) ->
  fs' = fs /\ path_isdir fs p = true.
Proof.
  unfold mkdir_OSError. destruct (is_OSError e); [|discriminate].
  unfold bind, Path_is_dir.
  destruct exist_ok; simpl; [|discriminate].
  destruct (path_isdir fs p); simpl; [|discriminate].
  now intros [= <-].
Qed.

Lemma Path_mkdir_leaf_returned p exist_ok fs fs' :
  Path_mkdir_leaf p exist_ok fs = (fs', Returned tt) -> path_isdir fs' p = true.
Proof.
  unfold Path_mkdir_leaf, try_except.
  destruct (mkdir p fs) as [fs1 [[]|e]] eqn:Hmk.
  - intros [= <-]. now apply mkdir_returned in Hmk.
  - apply mkdir_raised in Hmk as [-> _].
    destruct (is_FileNotFoundError e); [discriminate|].
    intros H. apply mkdir_OSError_returned in H as [-> H]. exact H.
Qed.

(** Whenever [Path.mkdir] returns, the path is a directory. *)
Lemma Path_mkdir_from_returned r rtail parents exist_ok fs fs' :
  Path_mkdir_from r rtail parents exist_ok fs = (fs', Returned tt) ->
  path_isdir fs' {| root := r; tail := rev rtail |} = true.
Proof.
  destruct rtail as [|n rparent]; cbn [Path_mkdir_from]; unfold try_except.
  - destruct (mkdir _ fs) as [fs1 [[]|e]] eqn:Hmk.
    + intros [= <-]. now apply mkdir_returned in Hmk.
    + apply mkdir_raised in Hmk as [-> _].
      destruct (is_FileNotFoundError e); [discriminate|].
      intros H. apply mkdir_OSError_returned in H as [-> H]. exact H.
  - destruct (mkdir _ fs) as [fs1 [[]|e]] eqn:Hmk.
    + intros [= <-]. now apply mkdir_returned in Hmk.
    + apply mkdir_raised in Hmk as [-> _].
      destruct (is_FileNotFoundError e).
      * destruct parents; simpl; [|discriminate].
        unfold bind.
        destruct (Path_mkdir_from r rparent true true fs) as [fs1 [[]|e1]];
          [|discriminate].
        apply Path_mkdir_leaf_returned.
      * intros H. apply mkdir_OSError_returned in H as [-> H]. exact H.
Qed.

(** On a directory, [Path.mkdir(exist_ok=True)] returns and changes
    nothing. *)
Lemma Path_mkdir_from_existing_directory r rtail parents fs :
  path_isdir fs {| root := r; tail := rev rtail |} = true ->
  Path_mkdir_from r rtail parents true fs = (fs, Returned tt).
Proof.
  intros H.
  destruct rtail as [|n rparent]; cbn [Path_mkdir_from]; unfold try_except;
    rewrite (mkdir_existing_directory _ _ H); cbn [is_FileNotFoundError];
    unfold mkdir_OSError, bind, Path_is_dir; cbn [is_OSError]; now rewrite H.
Qed.

Lemma Path_rev_tail (p : Path) : {| root := root p; tail := rev (rev (tail p)) |} = p.
Proof. destruct p; simpl. now rewrite rev_involutive. Qed.

Lemma Path_mkdir_returned p parents exist_ok fs fs' :
  Path_mkdir p parents exist_ok fs = (fs', Returned tt) -> path_isdir fs' p = true.
Proof.
  intros H. apply Path_mkdir_from_returned in H. now rewrite Path_rev_tail in H.
Qed.

Lemma Path_mkdir_existing_directory p parents fs :
  path_isdir fs p = true -> Path_mkdir p parents true fs = (fs, Returned tt).
Proof.
  intros H. apply Path_mkdir_from_existing_directory. now rewrite Path_rev_tail.
Qed.

(** The ancestors of a directory are directories. *)
Lemma path_isdir_rparents fs r rtail :
  path_isdir fs {| root := r; tail := rev rtail |} = true ->
  Forall (fun q => path_isdir fs q = true) (rparents r rtail).
Proof.
  induction rtail as [|n rest IH]; simpl; intros H; [constructor|].
  assert (Hup : path_isdir fs {| root := r; tail := rev rest |} = true).
  { destruct (path_isdir_inv _ _ H) as (l & Hr & _).
    unfold resolve in Hr; simpl in Hr.
    apply walk_snoc in Hr as (up & Hup & Hdir).
    now apply (path_isdir_intro _ _ up). }
  constructor; [exact Hup|]. now apply IH.
Qed.

Lemma path_isdir_parents fs p :
  path_isdir fs p = true -> Forall (fun q => path_isdir fs q = true) (parents p).
Proof.
  intros H. apply path_isdir_rparents. now rewrite Path_rev_tail.
Qed.

Lemma grows_refl fs : grows fs fs.
Proof. repeat split; auto. Qed.

Lemma grows_trans fs1 fs2 fs3 : grows fs1 fs2 -> grows fs2 fs3 -> grows fs1 fs3.
Proof.
  intros (Hc1 & Hd1 & Hf1) (Hc2 & Hd2 & Hf2). repeat split.
  - congruence.
  - auto.
  - intros c x H. auto.
Qed.

Lemma grows_put_Dir l fs : grows fs (put l Dir fs).
Proof.
  repeat split.
  - intros c. apply node_at_put_Dir.
  - intros c x H. destruct (decide (c = l)) as [->|Hne].
    + destruct l as [|a l]; [discriminate|].
      rewrite node_at_put_same in H by discriminate. discriminate.
    + now rewrite node_at_put_other in H.
Qed.

End directory_creation.

(** ** The default adapters on the world *)

Lemma on_disk_eq {A} (m : M os.FileSystem A) (w : World) :
  on_disk m w = ({| disk := fst (m (disk w)); network := network w |}, snd (m (disk w))).
Proof. unfold on_disk. now destruct (m (disk w)). Qed.

Lemma on_disk_unchanged {A} (m : M os.FileSystem A) (w : World) (r : outcome A) :
  m (disk w) = (disk w, r) -> on_disk m w = (w, r).
Proof. intros H. rewrite on_disk_eq, H. now destruct w. Qed.

Lemma on_disk_inv {A} (m : M os.FileSystem A) (w w' : World) (r : outcome A) :
  on_disk m w = (w', r) -> m (disk w) = (disk w', r).
Proof.
  rewrite on_disk_eq. intros [= <- <-]. simpl. now destruct (m (disk w)).
Qed.

(** On a directory, [create_directory] returns and changes nothing. *)
Lemma create_directory_existing_directory (p : Path) (w : World) :
  os.path_isdir (disk w) p = true ->
  DefaultFileSystem.create_directory DefaultFileSystem.new p w = (w, Returned tt).
Proof.
  intros H. apply on_disk_unchanged. now apply Path_mkdir_existing_directory.
Qed.

(** The existence check of the default file system changes nothing. *)
Lemma DefaultFileSystem_exists_pure (p : Path) (w : World) :
  DefaultFileSystem.exists_ DefaultFileSystem.new p w
  = (w, Returned (os.path_exists (disk w) p)).
Proof. now apply on_disk_unchanged. Qed.

(** X22.  With the default file system and any downloader: when the
    destination exists and skipping is asked for, [load_document] returns
    [False] and the world is as it was. *)
Lemma load_document_skip_leaves_world {D} `{!DocumentDownloader World D}
      (downloader : D) (url : string) (d : Path) (w : World) :
  os.path_exists (disk w) d = true ->
  load_document (DocumentLoadService.new_default downloader) url d true w
  = (w, Returned false).
Proof.
  intros H. pose proof (DefaultFileSystem_exists_pure d w) as E.
  unfold load_document, bind. cbn -[on_disk] in *.
  unfold DefaultFileSystem.exists_ in *. now rewrite E, H.
Qed.

(** C7 (idempotent directory creation).  When [create_directory p] has
    returned, a second [create_directory p] returns too and changes nothing;
    [ensure_directory_exists] on a repository rooted at [p] is the same
    operation, so the same holds for it; and what was created is [p] with
    all its ancestors: each of them is a directory afterwards. *)
Theorem directory_creation_idempotent (p : Path) (w w1 : World) :
  DefaultFileSystem.create_directory DefaultFileSystem.new p w = (w1, Returned tt) ->
  DefaultFileSystem.create_directory DefaultFileSystem.new p w1 = (w1, Returned tt)
  /\ ensure_directory_exists (DocumentRepository.new p) w = (w1, Returned tt)
  /\ ensure_directory_exists (DocumentRepository.new p) w1 = (w1, Returned tt)
  /\ os.path_isdir (disk w1) p = true
  /\ Forall (fun q => os.path_isdir (disk w1) q = true) (parents p).
Proof.
  intros H.
  assert (Hdir : os.path_isdir (disk w1) p = true).
  { apply on_disk_inv in H. now apply Path_mkdir_returned in H. }
  pose proof (create_directory_existing_directory p w1 Hdir) as H2.
  repeat split; try assumption.
  now apply path_isdir_parents.
Qed.

(** X15.  Two calls of [create_directory] in a row do what one call does,
    in every world: same outcome, same world afterwards.  In particular an
    error of the pair is the error of the first call. *)
Lemma create_directory_twice (p : Path) (w : World) :
  (DefaultFileSystem.create_directory DefaultFileSystem.new p ;;
   DefaultFileSystem.create_directory DefaultFileSystem.new p) w
  = DefaultFileSystem.create_directory DefaultFileSystem.new p w.
Proof.
  unfold bind.
  destruct (DefaultFileSystem.create_directory _ p w) as [w1 [[]|e]] eqn:H;
    [|reflexivity].
  apply on_disk_inv in H. apply Path_mkdir_returned in H.
  now apply create_directory_existing_directory.
Qed.

Lemma directory_creation_idempotent_witness :
  DefaultFileSystem.create_directory DefaultFileSystem.new
    (PurePath "/level1/level2/level3") (test_world 200 pdf_content)
  = ({| disk := {| os.entries :=
                     <[ ["level1"; "level2"; "level3"] := os.Dir ]>
                       (<[ ["level1"; "level2"] := os.Dir ]>
                          (<[ ["level1"] := os.Dir ]> ∅));
                   os.cwd := [] |};
        network := answering 200 pdf_content |}, Returned tt)
  /\ snd (DefaultFileSystem.create_directory DefaultFileSystem.new
            (PurePath "/level1/level2/level3")
            (fst (DefaultFileSystem.create_directory DefaultFileSystem.new
                    (PurePath "/level1/level2/level3") (test_world 200 pdf_content))))
     = Returned tt.
Proof.
  assert (H : DefaultFileSystem.create_directory DefaultFileSystem.new
                (PurePath "/level1/level2/level3") (test_world 200 pdf_content)
              = ({| disk := {| os.entries :=
                                 <[ ["level1"; "level2"; "level3"] := os.Dir ]>
                                   (<[ ["level1"; "level2"] := os.Dir ]>
                                      (<[ ["level1"] := os.Dir ]> ∅));
                               os.cwd := [] |};
                    network := answering 200 pdf_content |}, Returned tt))
    by (vm_compute; reflexivity).
  split; [exact H|].
  rewrite H. simpl fst.
  rewrite (proj1 (directory_creation_idempotent _ _ _ H)). reflexivity.
Defined.

(** ** The HTTP downloader *)

Import HTTPDocumentDownloader.

(** C5, as the code has it.  When the response has a client-error or
    server-error status (400 to 599), [download] raises [HTTPError] with
    that status and leaves the world as it was: no directory is created and
    no file is written. *)
Theorem download_raises_for_error_status
        (self : HTTPDocumentDownloader.t) (url : string) (destination : Path)
        (w : World) (response : requests.Response) :
  network w url (timeout self) = inr response ->
  400 <= requests.status_code response < 600 ->
  download self url destination w
  = (w, Raised (HTTPError (requests.status_code response))).
Proof.
  intros Hget Hstatus.
  unfold download, bind, requests_get. rewrite Hget.
  unfold requests.raise_for_status.
  replace ((400 <=? requests.status_code response)
           && (requests.status_code response <? 600)) with true by lia.
  reflexivity.
Qed.

Lemma download_raises_for_error_status_witness :
  download (HTTPDocumentDownloader.new None None) document_url document_destination
    (test_world 404 [])
  = (test_world 404 [], Raised (HTTPError 404)).
Proof.
  apply (download_raises_for_error_status
           (HTTPDocumentDownloader.new None None) document_url document_destination
           (test_world 404 [])
           {| requests.status_code := 404; requests.body := inr [] |}).
  - reflexivity.
  - simpl. lia.
Defined.

(** A status outside 200..299 that is no error status: the response 304
    (Not Modified) passes [raise_for_status], so [download] returns
    normally, and the file, absent before, holds the body afterwards. *)
Lemma download_writes_on_status_304 :
  network (test_world 304 pdf_content) document_url 30
  = inr {| requests.status_code := 304; requests.body := inr pdf_content |}
  /\ ~ (200 <= 304 < 300)
  /\ os.path_exists (disk (test_world 304 pdf_content)) document_destination = false
  /\ snd (download (HTTPDocumentDownloader.new None None) document_url
            document_destination (test_world 304 pdf_content))
     = Returned tt
  /\ os.stat
       (disk (fst (download (HTTPDocumentDownloader.new None None) document_url
                     document_destination (test_world 304 pdf_content))))
       document_destination
     = inr (os.File pdf_content).
Proof.
  split; [reflexivity|]. split; [lia|].
  split; [reflexivity|]. split; vm_compute; reflexivity.
Qed.

(** C8 (the chunk size).  [download] never reads [chunk_size], which the
    constructor documents as the size of the chunks of a streamed download:
    two downloaders that differ only in [chunk_size] do the same on every
    URL, destination and world, so the bytes written do not depend on it, and
    neither does the way the response is read.  With a chunk size of one
    byte, a body of three bytes is taken whole from [response.content] and
    written, exactly as with the default of 8192. *)
Theorem download_never_reads_chunk_size
        (timeout chunk_size1 chunk_size2 : Z) (url : string) (destination : Path)
        (w : World) :
  download {| timeout := timeout; chunk_size := chunk_size1 |} url destination w
  = download {| timeout := timeout; chunk_size := chunk_size2 |} url destination w
  /\ download {| timeout := 30; chunk_size := 1 |} document_url
       document_destination (test_world 200 pdf_content)
     = (stored_world, Returned tt)
  /\ download {| timeout := 30; chunk_size := 8192 |} document_url
       document_destination (test_world 200 pdf_content)
     = (stored_world, Returned tt).
Proof. split; [reflexivity|]. split; vm_compute; reflexivity. Qed.

(** ** The whole workflow, on the fixtures of the integration tests *)

Example complete_workflow_new_download :
  let repository := DocumentRepository.new (PurePath "/documents") in
  let service := DocumentLoadService.new_default (HTTPDocumentDownloader.new None None) in
  let destination := get_document_path repository "test.pdf" in
  let run := (ensure_directory_exists repository ;;
              load_document service document_url destination true)
               (test_world 200 pdf_content) in
  snd run = Returned true
  /\ os.stat (disk (fst run)) destination = inr (os.File pdf_content).
Proof. split; vm_compute; reflexivity. Qed.

Example complete_workflow_skip_existing :
  let repository := DocumentRepository.new (PurePath "/documents") in
  let service := DocumentLoadService.new_default (HTTPDocumentDownloader.new None None) in
  let destination := get_document_path repository "test.pdf" in
  let run := (ensure_directory_exists repository ;;
              on_disk (Path_write_bytes destination [Byte.x45]) ;;
              load_document service document_url destination true)
               (test_world 200 pdf_content) in
  snd run = Returned false
  /\ os.stat (disk (fst run)) destination = inr (os.File [Byte.x45]).
Proof. split; vm_compute; reflexivity. Qed.

Example download_not_found_writes_nothing :
  download (HTTPDocumentDownloader.new None None) document_url document_destination
    (test_world 404 pdf_content)
  = (test_world 404 pdf_content, Raised (HTTPError 404)).
Proof. reflexivity. Qed.

(** ** More on the file system *)

Section file_system_facts.

Import os.

(** Writing a node where no directory is hides no directory. *)
Lemma node_at_put_keeps_Dir target n fs c :
  node_at fs target <> Some Dir ->
  node_at fs c = Some Dir -> node_at (put target n fs) c = Some Dir.
Proof.
  intros Ht Hc. rewrite node_at_put_other; [exact Hc|]. intros ->. contradiction.
Qed.

Lemma walk_put_keeps target n fs names : forall cur l,
  node_at fs target <> Some Dir ->
  walk fs cur names = inr l -> walk (put target n fs) cur names = inr l.
Proof.
  induction names as [|m rest IH]; intros cur l Ht; simpl; [trivial|].
  destruct (node_at fs cur) as [[c|]|] eqn:Hc; try discriminate.
  rewrite (node_at_put_keeps_Dir _ _ _ _ Ht Hc). now apply IH.
Qed.

Lemma path_isdir_put_keeps target n fs q :
  node_at fs target <> Some Dir ->
  path_isdir fs q = true -> path_isdir (put target n fs) q = true.
Proof.
  intros Ht H. destruct (path_isdir_inv _ _ H) as (l & Hr & Hl).
  apply (path_isdir_intro _ _ l).
  - unfold resolve in *. now apply walk_put_keeps.
  - now apply node_at_put_keeps_Dir.
Qed.

(** What [os.write] does when it returns. *)
Lemma write_returned_inv p data fs fs' :
  write p data fs = (fs', Returned tt) ->
  exists l, resolve fs p = inr l /\ node_at fs l <> Some Dir
            /\ fs' = put l (File data) fs.
Proof.
  unfold write. destruct (resolve fs p) as [e|l]; [discriminate|].
  destruct (node_at fs l) as [[c|]|] eqn:Hl; try discriminate;
    intros [= <-]; exists l; repeat split; congruence.
Qed.

Lemma write_returned_stat p data fs fs' :
  write p data fs = (fs', Returned tt) -> stat fs' p = inr (File data).
Proof.
  intros H. apply write_returned_inv in H as (l & Hr & Hl & ->).
  unfold stat.
  replace (resolve (put l (File data) fs) p) with (inr (B:=list string) (A:=errno) l).
  - rewrite node_at_put_same; [reflexivity|].
    intros ->. now apply Hl.
  - symmetry. unfold resolve in *. now apply walk_put_keeps.
Qed.


(** [Path.mkdir] only ever adds directories, whether it returns or
    raises. *)
Lemma mkdir_grows p fs : grows fs (fst (mkdir p fs)).
Proof.
  unfold mkdir. destruct (resolve fs p) as [e|l]; [apply grows_refl|].
  destruct (node_at fs l); [apply grows_refl|apply grows_put_Dir].
Qed.

Lemma mkdir_OSError_unchanged p ok e fs : fst (mkdir_OSError p ok e fs) = fs.
Proof.
  unfold mkdir_OSError. destruct (is_OSError e); [|reflexivity].
  unfold bind, Path_is_dir. destruct (negb ok || negb (path_isdir fs p)); reflexivity.
Qed.

Lemma Path_mkdir_leaf_grows p ok fs : grows fs (fst (Path_mkdir_leaf p ok fs)).
Proof.
  unfold Path_mkdir_leaf, try_except.
  pose proof (mkdir_grows p fs) as Hg.
  destruct (mkdir p fs) as [fs1 [[]|e]] eqn:Hmk; [exact Hg|].
  apply mkdir_raised in Hmk as [-> _].
  destruct (is_FileNotFoundError e); [apply grows_refl|].
  rewrite mkdir_OSError_unchanged. apply grows_refl.
Qed.

Lemma Path_mkdir_from_grows r rtail : forall parents ok fs,
  grows fs (fst (Path_mkdir_from r rtail parents ok fs)).
Proof.
  induction rtail as [|n rest IH]; intros parents ok fs;
    cbn [Path_mkdir_from]; unfold try_except.
  - pose proof (mkdir_grows {| root := r; tail := rev [] |} fs) as Hg.
    destruct (mkdir _ fs) as [fs1 [[]|e]] eqn:Hmk; [exact Hg|].
    apply mkdir_raised in Hmk as [-> _].
    destruct (is_FileNotFoundError e); [apply grows_refl|].
    rewrite mkdir_OSError_unchanged. apply grows_refl.
  - pose proof (mkdir_grows {| root := r; tail := rev (n :: rest) |} fs) as Hg.
    destruct (mkdir _ fs) as [fs1 [[]|e]] eqn:Hmk; [exact Hg|].
    apply mkdir_raised in Hmk as [-> _].
    destruct (is_FileNotFoundError e).
    + destruct parents; cbn [negb]; [|apply grows_refl].
      unfold bind. specialize (IH true true fs).
      destruct (Path_mkdir_from r rest true true fs) as [fs1 [[]|e1]];
        [|exact IH].
      apply (grows_trans _ fs1); [exact IH|apply Path_mkdir_leaf_grows].
    + rewrite mkdir_OSError_unchanged. apply grows_refl.
Qed.

(** On a regular file, [Path.mkdir] raises [FileExistsError], also with
    [exist_ok]. *)
Lemma Path_mkdir_from_on_file r rtail parents ok fs content :
  stat fs {| root := r; tail := rev rtail |} = inr (File content) ->
  Path_mkdir_from r rtail parents ok fs
  = (fs, Raised (FileExistsError {| root := r; tail := rev rtail |})).
Proof.
  intros H.
  assert (Hmk : mkdir {| root := r; tail := rev rtail |} fs
                = (fs, Raised (FileExistsError {| root := r; tail := rev rtail |}))).
  { unfold stat in H. unfold mkdir.
    destruct (resolve fs _) as [e|l]; [discriminate|].
    destruct (node_at fs l); [reflexivity|discriminate]. }
  assert (Hd : path_isdir fs {| root := r; tail := rev rtail |} = false)
    by (unfold path_isdir; now rewrite H).
  destruct rtail as [|n rest]; cbn [Path_mkdir_from]; unfold try_except;
    rewrite Hmk; cbn [is_FileNotFoundError];
    unfold mkdir_OSError, bind, Path_is_dir; cbn [is_OSError];
    rewrite Hd; cbn [negb]; rewrite orb_true_r; reflexivity.
Qed.

End file_system_facts.

(** ** More on the default file system *)

(** After a write that returned, the path exists and is no directory. *)
Lemma write_returned_exists p data fs fs' :
  Path_write_bytes p data fs = (fs', Returned tt) ->
  os.path_exists fs' p = true /\ os.path_isdir fs' p = false.
Proof.
  intros H. apply write_returned_stat in H.
  unfold os.path_exists, os.path_isdir. now rewrite H.
Qed.

(** X4.  What [write_bytes] wrote is there: once it has returned, [exists]
    answers [True] for the path, changing nothing, the path is no directory,
    and the network is as it was. *)
Theorem write_bytes_then_exists (p : Path) (content : bytes) (w w' : World) :
  DefaultFileSystem.write_bytes DefaultFileSystem.new p content w = (w', Returned tt) ->
  DefaultFileSystem.exists_ DefaultFileSystem.new p w' = (w', Returned true)
  /\ os.path_isdir (disk w') p = false
  /\ network w' = network w.
Proof.
  intros H. pose proof (on_disk_inv _ _ _ _ H) as Hw.
  apply write_returned_exists in Hw as [Hex Hdir].
  split; [|split].
  - rewrite DefaultFileSystem_exists_pure. now rewrite Hex.
  - exact Hdir.
  - unfold DefaultFileSystem.write_bytes in H. rewrite on_disk_eq in H.
    now inversion H.
Qed.


(** X13.  On a regular file [create_directory] raises [FileExistsError] and
    changes nothing, and so does [ensure_directory_exists]: [exist_ok]
    forgives an existing directory only. *)
Theorem create_directory_on_file (p : Path) (content : bytes) (w : World) :
  os.stat (disk w) p = inr (os.File content) ->
  DefaultFileSystem.create_directory DefaultFileSystem.new p w
  = (w, Raised (FileExistsError p))
  /\ ensure_directory_exists (DocumentRepository.new p) w
     = (w, Raised (FileExistsError p)).
Proof.
  intros H.
  assert (Hmk : Path_mkdir p true true (disk w) = (disk w, Raised (FileExistsError p))).
  { unfold Path_mkdir.
    rewrite (Path_mkdir_from_on_file _ _ _ _ _ content);
      now rewrite Path_rev_tail. }
  split; apply on_disk_unchanged; exact Hmk.
Qed.

(** X14.  Whether it returns or raises, [create_directory] only adds
    directories: the directories there were are still there, every regular
    file afterwards was there before with the same content, and the network
    is not touched. *)
Theorem create_directory_only_adds_directories (p : Path) (w : World) :
  os.grows (disk w)
    (disk (fst (DefaultFileSystem.create_directory DefaultFileSystem.new p w)))
  /\ network (fst (DefaultFileSystem.create_directory DefaultFileSystem.new p w))
     = network w.
Proof.
  unfold DefaultFileSystem.create_directory. rewrite on_disk_eq. simpl.
  split; [apply Path_mkdir_from_grows|reflexivity].
Qed.

(** ** More on the HTTP downloader *)

(** A response passes [raise_for_status] unless its status is an error. *)
Lemma raise_for_status_passes {S} (response : requests.Response) (s : S) :
  ~ (400 <= requests.status_code response < 600) ->
  requests.raise_for_status response s = (s, Returned tt).
Proof.
  intros H. unfold requests.raise_for_status.
  replace ((400 <=? requests.status_code response)
           && (requests.status_code response <? 600)) with false by lia.
  reflexivity.
Qed.

(** What must have happened when [download] returns. *)
Lemma download_returned_inv (self : HTTPDocumentDownloader.t) (url : string)
      (destination : Path) (w w' : World) :
  download self url destination w = (w', Returned tt) ->
  exists response content fs1,
    network w url (timeout self) = inr response
    /\ ~ (400 <= requests.status_code response < 600)
    /\ requests.body response = inr content
    /\ Path_mkdir (parent destination) true true (disk w) = (fs1, Returned tt)
    /\ Path_write_bytes destination content fs1 = (disk w', Returned tt)
    /\ network w' = network w.
Proof.
  unfold download, bind, requests_get.
  destruct (network w url (timeout self)) as [e|response] eqn:Hget; [discriminate|].
  unfold requests.raise_for_status.
  destruct ((400 <=? requests.status_code response)
            && (requests.status_code response <? 600)) eqn:Hstatus; [discriminate|].
  cbn [ret]. rewrite on_disk_eq.
  destruct (Path_mkdir (parent destination) true true (disk w))
    as [fs1 [[]|e]] eqn:Hmk; cbn [fst snd]; [|discriminate].
  unfold requests.content.
  destruct (requests.body response) as [e|content] eqn:Hbody; [discriminate|].
  cbn [ret]. rewrite on_disk_eq. cbn [disk network].
  destruct (Path_write_bytes destination content fs1) as [fs2 [[]|e]] eqn:Hwr;
    cbn [fst snd]; [|discriminate].
  intros [= <-]. exists response, content, fs1.
  repeat split; try assumption; try reflexivity. lia.
Qed.

(** X7.  When the request itself fails (no connection, timeout),
    [download] raises that error and leaves the world as it was: no
    directory is created and no file is written. *)
Theorem download_transport_error
        (self : HTTPDocumentDownloader.t) (url : string) (destination : Path)
        (w : World) (e : exn) :
  network w url (timeout self) = inl e ->
  download self url destination w = (w, Raised e).
Proof.
  intros Hget. unfold download, bind, requests_get. now rewrite Hget.
Qed.

(** X8.  The parent directory is made before the body is read: when the
    status passes and reading the body fails with [e], [download] raises
    [e], no file is written, and the directory it made stays. *)
Theorem download_body_error
        (self : HTTPDocumentDownloader.t) (url : string) (destination : Path)
        (w : World) (response : requests.Response) (e : exn) (fs1 : os.FileSystem) :
  network w url (timeout self) = inr response ->
  ~ (400 <= requests.status_code response < 600) ->
  requests.body response = inl e ->
  Path_mkdir (parent destination) true true (disk w) = (fs1, Returned tt) ->
  download self url destination w
  = ({| disk := fs1; network := network w |}, Raised e)
  /\ os.path_isdir fs1 (parent destination) = true.
Proof.
  intros Hget Hstatus Hbody Hmk. split.
  - unfold download, bind, requests_get. rewrite Hget.
    rewrite raise_for_status_passes by exact Hstatus.
    rewrite on_disk_eq, Hmk. cbn [fst snd].
    unfold requests.content. now rewrite Hbody.
  - now apply Path_mkdir_returned in Hmk.
Qed.

(** X9.  Whenever [download] returns, this is what happened: the network
    answered the request for [url] under the configured timeout with a
    status that is no error status, the body could be read, the parent
    directory was made, and the run ended with
    [destination.write_bytes(body)] for exactly that body.  Afterwards the
    destination exists, its parent is a directory, and the network is as it
    was. *)
Theorem download_returned
        (self : HTTPDocumentDownloader.t) (url : string) (destination : Path)
        (w w' : World) :
  download self url destination w = (w', Returned tt) ->
  exists response content fs1,
    network w url (timeout self) = inr response
    /\ ~ (400 <= requests.status_code response < 600)
    /\ requests.body response = inr content
    /\ Path_mkdir (parent destination) true true (disk w) = (fs1, Returned tt)
    /\ Path_write_bytes destination content fs1 = (disk w', Returned tt)
    /\ os.path_exists (disk w') destination = true
    /\ os.path_isdir (disk w') (parent destination) = true
    /\ network w' = network w.
Proof.
  intros H.
  apply download_returned_inv in H
    as (response & content & fs1 & Hget & Hstatus & Hbody & Hmk & Hwr & Hnet).
  exists response, content, fs1. repeat split; try assumption.
  - now apply write_returned_exists in Hwr.
  - apply Path_mkdir_returned in Hmk.
    apply write_returned_inv in Hwr as (l & _ & Hl & ->).
    now apply path_isdir_put_keeps.
Qed.

(** X11.  [download] asks the network one thing, the given URL under the
    configured timeout: in two worlds with the same disk whose networks
    give the same answer to that request, it ends the same way and leaves
    the same disk. *)
Theorem download_one_request
        (self : HTTPDocumentDownloader.t) (url : string) (destination : Path)
        (w1 w2 : World) :
  disk w1 = disk w2 ->
  network w1 url (timeout self) = network w2 url (timeout self) ->
  snd (download self url destination w1) = snd (download self url destination w2)
  /\ disk (fst (download self url destination w1))
     = disk (fst (download self url destination w2)).
Proof.
  intros Hd Hn. unfold download, bind, requests_get. rewrite <- Hn.
  destruct (network w1 url (timeout self)) as [e|response]; [now split|].
  unfold requests.raise_for_status.
  destruct ((400 <=? requests.status_code response)
            && (requests.status_code response <? 600)); [now split|].
  cbn [ret]. rewrite !on_disk_eq, <- Hd.
  destruct (Path_mkdir (parent destination) true true (disk w1))
    as [fs1 [[]|e]]; cbn [fst snd]; [|now split].
  unfold requests.content.
  destruct (requests.body response) as [e|content]; [now split|].
  cbn [ret]. rewrite !on_disk_eq. cbn [disk network fst snd]. now split.
Qed.

(** ** More on the repository *)

Lemma split_without_sep (s : string) : contains_sep s = false -> split s = [s].
Proof.
  induction s as [|c s IH]; simpl; [reflexivity|].
  destruct (Ascii.eqb c sep); simpl; [discriminate|].
  intros H. now rewrite (IH H).
Qed.

(** X18.  A plain file name (no separator, not empty, not ["."]) lands
    directly in the base directory: the parent of the document path, which
    is the directory [load_document] creates, is the base directory. *)
Theorem parent_of_document_path (base : Path) (filename : string) :
  contains_sep filename = false ->
  keep_part filename = true ->
  get_document_path (DocumentRepository.new base) filename
  = {| root := root base; tail := tail base ++ [filename] |}
  /\ parent (get_document_path (DocumentRepository.new base) filename) = base.
Proof.
  intros Hsep Hkeep.
  assert (Hrel : startswith_sep filename = false).
  { destruct filename as [|c f]; [reflexivity|]. simpl in *.
    now destruct (Ascii.eqb c sep). }
  unfold get_document_path, truediv, PurePath; simpl.
  rewrite (splitroot_relative _ Hrel); simpl.
  unfold parts. rewrite (split_without_sep _ Hsep). simpl. rewrite Hkeep.
  split; [reflexivity|].
  unfold parent; simpl. destruct (tail base ++ [filename]) eqn:E.
  - now destruct (tail base).
  - rewrite <- E, removelast_last. now destruct base.
Qed.

(** X19.  An empty file name, and the file name ["."], give the base
    directory itself. *)
Theorem get_document_path_empty (base : Path) :
  get_document_path (DocumentRepository.new base) EmptyString = base
  /\ get_document_path (DocumentRepository.new base) "." = base.
Proof.
  unfold get_document_path, truediv; simpl.
  change (parts EmptyString) with (@nil string).
  change (parts ".") with (@nil string).
  rewrite app_nil_r. now destruct base.
Qed.

(** ** The service on the default adapters *)

(** Built without a file system, the service is the one on the default file
    system. *)
Lemma init_without_file_system {D F} `{!DocumentDownloader World D}
      `{!FileSystemInterface World F}
      (truth : F -> bool) (downloader : D) (url : string) (destination : Path)
      (skip_if_exists : bool) (w : World) :
  load_document (DocumentLoadService.init truth downloader None) url destination
    skip_if_exists w
  = load_document (DocumentLoadService.new_default downloader) url destination
      skip_if_exists w.
Proof. reflexivity. Qed.

(** X20.  With the default file system and the HTTP downloader, [True]
    means that the download ran to its end: whenever [load_document] returns
    [True], the network answered the request for [url] with a status that is
    no error status, and the run ended with [destination.write_bytes(body)]
    for exactly the body served; the destination exists afterwards. *)
Theorem load_document_true_means_written
        (self : HTTPDocumentDownloader.t) (url : string) (destination : Path)
        (skip_if_exists : bool) (w w' : World) :
  load_document (DocumentLoadService.new_default self) url destination
    skip_if_exists w = (w', Returned true) ->
  exists response content fs1,
    network w url (timeout self) = inr response
    /\ ~ (400 <= requests.status_code response < 600)
    /\ requests.body response = inr content
    /\ Path_write_bytes destination content fs1 = (disk w', Returned tt)
    /\ os.path_exists (disk w') destination = true.
Proof.
  unfold load_document, bind. cbn -[on_disk download Path_mkdir].
  assert (Hgo : forall w0 : World,
             network w0 = network w ->
             match DefaultFileSystem.create_directory DefaultFileSystem.new
                     (parent destination) w0 with
             | (s', Returned _) =>
                 match download self url destination s' with
                 | (s'0, Returned _) => (s'0, Returned true)
                 | (s'0, Raised e) => (s'0, Raised e)
                 end
             | (s', Raised e) => (s', Raised e)
             end = (w', Returned true) ->
             exists response content fs1,
               network w url (timeout self) = inr response
               /\ ~ (400 <= requests.status_code response < 600)
               /\ requests.body response = inr content
               /\ Path_write_bytes destination content fs1 = (disk w', Returned tt)
               /\ os.path_exists (disk w') destination = true).
  { intros w0 Hn. unfold DefaultFileSystem.create_directory.
    rewrite on_disk_eq.
    destruct (Path_mkdir (parent destination) true true (disk w0))
      as [fs1 [[]|e]]; cbn [fst snd]; [|discriminate].
    destruct (download self url destination _) as [w2 [[]|e]] eqn:Hdl;
      [|discriminate].
    intros [= <-].
    apply download_returned_inv in Hdl
      as (response & content & fs2 & Hget & Hstatus & Hbody & _ & Hwr & _).
    cbn [network] in Hget. rewrite Hn in Hget.
    exists response, content, fs2. repeat split; try assumption.
    now apply write_returned_exists in Hwr. }
  destruct skip_if_exists.
  - unfold DefaultFileSystem.exists_ at 1. rewrite on_disk_eq.
    unfold Path_exists at 1 2. cbn [fst snd].
    destruct (os.path_exists (disk w) destination); [discriminate|].
    apply Hgo. reflexivity.
  - cbn [ret]. apply Hgo. reflexivity.
Qed.

(** X21.  With the default file system, [False] means that nothing was
    done: whenever [load_document] returns [False], skipping was asked for,
    the destination existed, and the world is as it was. *)
Theorem load_document_false_means_untouched
        {D} `{!DocumentDownloader World D}
        (downloader : D) (url : string) (destination : Path)
        (skip_if_exists : bool) (w w' : World) :
  load_document (DocumentLoadService.new_default downloader) url destination
    skip_if_exists w = (w', Returned false) ->
  skip_if_exists = true
  /\ os.path_exists (disk w) destination = true
  /\ w' = w.
Proof.
  unfold load_document, bind. cbn -[on_disk Path_mkdir].
  destruct skip_if_exists.
  - pose proof (DefaultFileSystem_exists_pure destination w) as E.
    unfold DefaultFileSystem.exists_ in *. rewrite E.
    destruct (os.path_exists (disk w) destination).
    + now intros [= <-].
    + destruct (DefaultFileSystem.create_directory _ _ w) as [w1 [[]|e]];
        [|discriminate].
      match goal with
      | |- context [match ?run with _ => _ end] => destruct run as [w2 [[]|e]]
      end; discriminate.
  - cbn [ret].
    destruct (DefaultFileSystem.create_directory _ _ w) as [w1 [[]|e]];
      [|discriminate].
    match goal with
    | |- context [match ?run with _ => _ end] => destruct run as [w2 [[]|e]]
    end; discriminate.
Qed.

(** ** Witnesses *)


Lemma create_directory_on_file_witness :
  os.stat (disk stored_world) document_destination = inr (os.File pdf_content)
  /\ DefaultFileSystem.create_directory DefaultFileSystem.new
       document_destination stored_world
     = (stored_world, Raised (FileExistsError document_destination)).
Proof.
  assert (H : os.stat (disk stored_world) document_destination
              = inr (os.File pdf_content)) by (vm_compute; reflexivity).
  split; [exact H|].
  apply (create_directory_on_file document_destination pdf_content stored_world H).
Defined.

Lemma load_document_skip_leaves_world_witness :
  os.path_exists (disk stored_world) document_destination = true
  /\ load_document
       (DocumentLoadService.new_default (HTTPDocumentDownloader.new None None))
       document_url document_destination true stored_world
     = (stored_world, Returned false).
Proof.
  assert (H : os.path_exists (disk stored_world) document_destination = true)
    by (vm_compute; reflexivity).
  split; [exact H|].
  apply (load_document_skip_leaves_world (HTTPDocumentDownloader.new None None)
           document_url document_destination stored_world H).
Defined.

Lemma get_document_path_rooted_witness :
  get_document_path (DocumentRepository.new (PurePath "/documents")) "/etc/passwd"
  = PurePath "/etc/passwd".
Proof.
  apply (get_document_path_rooted (PurePath "/documents") "/etc/passwd").
  reflexivity.
Defined.

Lemma get_document_path_relative_witness :
  get_document_path (DocumentRepository.new (PurePath "/documents"))
    "../nested//path.pdf"
  = {| root := RootSlash; tail := ["documents"; ".."; "nested"; "path.pdf"] |}.
Proof.
  apply (get_document_path_relative (PurePath "/documents") "../nested//path.pdf").
  reflexivity.
Defined.

Lemma parent_of_document_path_witness :
  get_document_path (DocumentRepository.new (PurePath "/documents")) "test.pdf"
  = PurePath "/documents/test.pdf"
  /\ parent (get_document_path (DocumentRepository.new (PurePath "/documents"))
               "test.pdf")
     = PurePath "/documents".
Proof.
  apply (parent_of_document_path (PurePath "/documents") "test.pdf");
    reflexivity.
Defined.

Lemma download_transport_error_witness :
  download (HTTPDocumentDownloader.new None None) document_url
    document_destination offline_world
  = (offline_world, Raised (RequestException "connection refused")).
Proof.
  apply (download_transport_error (HTTPDocumentDownloader.new None None)
           document_url document_destination offline_world
           (RequestException "connection refused")).
  reflexivity.
Defined.

Lemma download_body_error_witness :
  download (HTTPDocumentDownloader.new None None) document_url
    document_destination breaking_world
  = ({| disk := documents_disk; network := breaking 200 |},
     Raised (RequestException "connection broken"))
  /\ os.path_isdir documents_disk (parent document_destination) = true.
Proof.
  apply (download_body_error (HTTPDocumentDownloader.new None None)
           document_url document_destination breaking_world
           {| requests.status_code := 200;
              requests.body := inl (RequestException "connection broken") |}
           (RequestException "connection broken") documents_disk).
  - reflexivity.
  - simpl. lia.
  - reflexivity.
  - vm_compute. reflexivity.
Defined.

Lemma download_one_request_witness :
  snd (download (HTTPDocumentDownloader.new None None) document_url
         document_destination (test_world 200 pdf_content))
  = snd (download (HTTPDocumentDownloader.new None None) document_url
           document_destination patient_world)
  /\ disk (fst (download (HTTPDocumentDownloader.new None None) document_url
                  document_destination (test_world 200 pdf_content)))
     = disk (fst (download (HTTPDocumentDownloader.new None None) document_url
                    document_destination patient_world)).
Proof.
  apply (download_one_request (HTTPDocumentDownloader.new None None)
           document_url document_destination
           (test_world 200 pdf_content) patient_world);
    reflexivity.
Defined.

Lemma load_document_false_means_untouched_witness :
  load_document
    (DocumentLoadService.new_default (HTTPDocumentDownloader.new None None))
    document_url document_destination true stored_world
  = (stored_world, Returned false)
  /\ os.path_exists (disk stored_world) document_destination = true.
Proof.
  assert (H : load_document
                (DocumentLoadService.new_default (HTTPDocumentDownloader.new None None))
                document_url document_destination true stored_world
              = (stored_world, Returned false)) by (vm_compute; reflexivity).
  split; [exact H|].
  apply (load_document_false_means_untouched (HTTPDocumentDownloader.new None None)
           document_url document_destination true stored_world stored_world H).
Defined.

Lemma write_bytes_then_exists_witness :
  DefaultFileSystem.write_bytes DefaultFileSystem.new document_destination
    pdf_content documents_world
  = (stored_world, Returned tt)
  /\ DefaultFileSystem.exists_ DefaultFileSystem.new document_destination
       stored_world
     = (stored_world, Returned true).
Proof.
  assert (H : DefaultFileSystem.write_bytes DefaultFileSystem.new
                document_destination pdf_content documents_world
              = (stored_world, Returned tt)) by (vm_compute; reflexivity).
  split; [exact H|].
  apply (write_bytes_then_exists document_destination pdf_content
           documents_world stored_world H).
Defined.

Lemma download_returned_witness :
  download (HTTPDocumentDownloader.new None None) document_url
    document_destination (test_world 200 pdf_content)
  = (stored_world, Returned tt)
  /\ exists response content fs1,
       network (test_world 200 pdf_content) document_url 30 = inr response
       /\ ~ (400 <= requests.status_code response < 600)
       /\ requests.body response = inr content
       /\ Path_mkdir (parent document_destination) true true
            (disk (test_world 200 pdf_content))
          = (fs1, Returned tt)
       /\ Path_write_bytes document_destination content fs1
          = (disk stored_world, Returned tt)
       /\ os.path_exists (disk stored_world) document_destination = true
       /\ os.path_isdir (disk stored_world) (parent document_destination) = true
       /\ network stored_world = network (test_world 200 pdf_content).
Proof.
  assert (H : download (HTTPDocumentDownloader.new None None) document_url
                document_destination (test_world 200 pdf_content)
              = (stored_world, Returned tt)) by (vm_compute; reflexivity).
  split; [exact H|].
  apply (download_returned (HTTPDocumentDownloader.new None None) document_url
           document_destination (test_world 200 pdf_content) stored_world H).
Defined.

Lemma load_document_true_means_written_witness :
  load_document
    (DocumentLoadService.new_default (HTTPDocumentDownloader.new None None))
    document_url document_destination true (test_world 200 pdf_content)
  = (stored_world, Returned true)
  /\ exists response content fs1,
       network (test_world 200 pdf_content) document_url 30 = inr response
       /\ ~ (400 <= requests.status_code response < 600)
       /\ requests.body response = inr content
       /\ Path_write_bytes document_destination content fs1
          = (disk stored_world, Returned tt)
       /\ os.path_exists (disk stored_world) document_destination = true.
Proof.
  assert (H : load_document
                (DocumentLoadService.new_default (HTTPDocumentDownloader.new None None))
                document_url document_destination true (test_world 200 pdf_content)
              = (stored_world, Returned true)) by (vm_compute; reflexivity).
  split; [exact H|].
  apply (load_document_true_means_written (HTTPDocumentDownloader.new None None)
           document_url document_destination true
           (test_world 200 pdf_content) stored_world H).
Defined.
